(** * pykuda: the request/response normalisation of [ServiceTypeUtils]

    A shallow embedding of [src/pykuda/service_type_utils.py].  Every
    method of [ServiceTypeUtils] asks [generate_headers] for a header
    map, posts the caller's request to the configured URL, parses the
    JSON reply and maps it to a [PyKudaResponse].  The embedding keeps
    the Python evaluation order, so that the exceptions the methods let
    escape ([KeyError], [TypeError], [AttributeError], a failed
    [response.json()], a transport failure) are visible in the model. *)

From Stdlib Require Import ZArith String Bool List PrimFloat.
From stdpp Require Import base option gmap strings.

Open Scope string_scope.
Open Scope Z_scope.

(** ** Python values *)

Module Py.

(** What [json.loads] produces, which is also what a caller passes as
    the request [data]: [None], [bool], [int], [float], [str], [list]
    and [dict] with string keys.  A [dict] is a finite map: keys are
    unique and equality ignores insertion order. *)
#[warnings="-register-all"]
Inductive value : Type :=
| PNone
| PBool (b : bool)
| PInt (n : Z)
| PFloat (f : float)
| PStr (s : string)
| PList (l : list value)
| PDict (m : gmap string value).

(** The exceptions that can leave a method. *)
Inductive exn : Type :=
| KeyError (key : string)
| TypeError
| AttributeError
| JSONDecodeError
| RequestException.

(** The outcome of evaluating a Python expression or call. *)
Inductive outcome (A : Type) : Type :=
| Returned (a : A)
| Raised (e : exn).
Arguments Returned {A} a.
Arguments Raised {A} e.

Definition obind {A B} (x : outcome A) (k : A -> outcome B) : outcome B :=
  match x with
  | Returned a => k a
  | Raised e => Raised e
  end.

(** [bool(v)]: the truth value an [if] or an [and] tests. *)
Definition truthy (v : value) : bool :=
  match v with
  | PNone => false
  | PBool b => b
  | PInt n => negb (n =? 0)
  | PFloat f => negb (PrimFloat.eqb f PrimFloat.zero)
  | PStr s => negb (String.eqb s "")
  | PList l => match l with [] => false | _ :: _ => true end
  | PDict m => negb (Nat.eqb (size m) 0)
  end.

(** [v.get(k)]: only a [dict] has the attribute [get]; an absent key
    gives [None]. *)
Definition get (v : value) (k : string) : outcome value :=
  match v with
  | PDict m => Returned (default PNone (m !! k))
  | _ => Raised AttributeError
  end.

(** [v[k]] with a string [k]: [KeyError] on a [dict] without the key,
    [TypeError] on everything else. *)
Definition getitem (v : value) (k : string) : outcome value :=
  match v with
  | PDict m =>
      match m !! k with
      | Some x => Returned x
      | None => Raised (KeyError k)
      end
  | _ => Raised TypeError
  end.

(** [x and y]: [y] is evaluated only when [x] is truthy, and the value
    of the conjunction is the value of the operand that decided it. *)
Definition and_ (x y : outcome value) : outcome value :=
  obind x (fun v => if truthy v then y else Returned v).

(** [n == 200] on integers. *)
Definition eq_int (n m : Z) : outcome value := Returned (PBool (n =? m)).

Definition is_dict (v : value) : bool :=
  match v with
  | PDict _ => true
  | _ => false
  end.

End Py.

Import Py.

Declare Scope py_scope.
Delimit Scope py_scope with py.
Notation "x <- c ;; k" := (obind c (fun x => k))
  (at level 100, c at next level, right associativity) : py_scope.
Notation "a 'AND' b" := (and_ a b)
  (at level 60, right associativity) : py_scope.

(** ** The objects the methods handle *)

(** [requests.models.Response], as far as the methods look at it: the
    status code and what [response.json()] does ([None]: the body is not
    JSON and the call raises). *)
Record Response : Type := {
  r_status_code : Z;
  r_json : option value;
}.

(** What [PyKudaResponse.data] can hold: a value extracted from the reply
    or the [requests] response object itself. *)
Inductive payload : Type :=
| Extracted (v : value)
| RawResponse (r : Response).

(** [PyKudaResponse]; the dataclass itself lives in
    [pykuda/classes/py_kuda_response.py]. *)
Record PyKudaResponse : Type := {
  status_code : Z;
  data : payload;
  error : bool;
}.

(** Modelled from the spec: the default of the dataclass field [error]
    ([pykuda/classes/py_kuda_response.py] is not among the sources).  The
    success returns of every method construct the object without an
    [error] argument and the spec gives them [is_error = False], so the
    default is [False]. *)
Definition error_default : bool := false.

(** [PyKudaResponse(status_code=.., data=.., error=..)]; [None] for a call
    without the keyword [error]. *)
Definition PyKudaResponse_ (sc : Z) (d : payload) (e : option bool) : PyKudaResponse :=
  {| status_code := sc; data := d; error := default error_default e |}.

(** What [generate_headers] hands back: a header map or, when the token
    request failed, the [requests] response of that failure.  The methods
    tell them apart with [isinstance(headers, requests.models.Response)]. *)
Inductive headers_result : Type :=
| HeaderMap (h : gmap string string)
| HeaderResponse (r : Response).

(** One call of [requests.post(url, json=.., headers=.., timeout=..)]. *)
Record post_call : Type := {
  post_url : string;
  post_json : value;
  post_headers : gmap string string;
  post_timeout : Z;
}.

(** The world outside: how the remote end answers a POST (a response, or a
    transport failure that [requests] raises) and the POSTs issued so far. *)
Record world : Type := {
  network : post_call -> outcome Response;
  sent : list post_call;
}.

(** [self]: the configured URL [self.credentials["REQUEST_URL"]] and the
    result of [self.generate_headers()], both inherited from [Utils].
    What the header step itself exchanges with the token URL is not part
    of the methods and stays outside [world]. *)
Record ServiceTypeUtils : Type := {
  REQUEST_URL : string;
  generate_headers : headers_result;
}.

(** ** Method bodies: state (the world) and exceptions *)

Definition M (A : Type) : Type := world -> outcome A * world.

Definition ret {A} (a : A) : M A := fun w => (Returned a, w).

Definition bind {A B} (c : M A) (k : A -> M B) : M B :=
  fun w =>
    match c w with
    | (Returned a, w') => k a w'
    | (Raised e, w') => (Raised e, w')
    end.

Definition lift {A} (o : outcome A) : M A := fun w => (o, w).

Declare Scope m_scope.
Delimit Scope m_scope with M.
Notation "x <- c ;; k" := (bind c (fun x => k))
  (at level 100, c at next level, right associativity) : m_scope.

(** [requests.post]: the call is recorded, then the remote end answers. *)
Definition requests_post (url : string) (json : value)
    (headers : gmap string string) (timeout : Z) : M Response :=
  fun w =>
    let c := {| post_url := url; post_json := json;
                post_headers := headers; post_timeout := timeout |} in
    (network w c, {| network := network w; sent := (sent w ++ [c])%list |}).

(** [response.json()]. *)
Definition json (response : Response) : M value :=
  lift (match r_json response with
        | Some v => Returned v
        | None => Raised JSONDecodeError
        end).

(** ** The methods of [ServiceTypeUtils]

    For each method, the condition of its [if] comes first (the source
    has it inline), then the method.  Line numbers are those of
    [service_type_utils.py]. *)

Section Methods.

Variable self : ServiceTypeUtils.

(** *** Account requests *)

(** Lines 48-54. *)
Definition bank_list_cond (response : Response) (response_data : value) : outcome value :=
  (eq_int (r_status_code response) 200
   AND Returned response_data
   AND get response_data "status"
   AND get response_data "data"
   AND (d <- get response_data "data";; get d "banks"))%py.

(** Lines 27-62. *)
Definition bank_list_request (data : value) : M PyKudaResponse :=
  match generate_headers self with
  | HeaderResponse headers =>
      ret (PyKudaResponse_ (r_status_code headers) (RawResponse headers) None)
  | HeaderMap headers =>
      (response <- requests_post (REQUEST_URL self) data headers 10;;
       response_data <- json response;;
       c <- lift (bank_list_cond response response_data);;
       if truthy c then
         lift (d <- getitem response_data "data";;
               banks <- getitem d "banks";;
               Returned (PyKudaResponse_ 200 (Extracted banks) None))%py
       else
         ret (PyKudaResponse_ (r_status_code response) (RawResponse response) (Some true)))%M
  end.

(** Lines 85-91. *)
Definition create_virtual_account_cond (response : Response) (response_data : value) : outcome value :=
  (eq_int (r_status_code response) 200
   AND Returned response_data
   AND get response_data "status"
   AND get response_data "data"
   AND (d <- get response_data "data";; get d "accountNumber"))%py.

(** Lines 64-103. *)
Definition create_virtual_account_request (data : value) : M PyKudaResponse :=
  match generate_headers self with
  | HeaderResponse headers =>
      ret (PyKudaResponse_ (r_status_code headers) (RawResponse headers) None)
  | HeaderMap headers =>
      (response <- requests_post (REQUEST_URL self) data headers 10;;
       response_data <- json response;;
       c <- lift (create_virtual_account_cond response response_data);;
       if truthy c then
         lift (d <- getitem response_data "data";;
               account_number <- getitem d "accountNumber";;
               q <- getitem data "Data";;
               tracking_reference <- getitem q "trackingReference";;
               Returned (PyKudaResponse_ 201
                 (Extracted (PDict {[ "account_number" := account_number;
                                      "tracking_reference" := tracking_reference ]}))
                 None))%py
       else
         ret (PyKudaResponse_ (r_status_code response) (RawResponse response) (Some true)))%M
  end.

(** Line 129 (and, the same text, line 167). *)
Definition balance_cond (response : Response) (response_data : value) : outcome value :=
  (eq_int (r_status_code response) 200
   AND get response_data "status")%py.

(** Lines 132-136 (and 170-174): the dictionary of the three balances. *)
Definition balance_payload (response_data : value) : outcome value :=
  (d1 <- getitem response_data "data";;
   ledger <- getitem d1 "ledgerBalance";;
   d2 <- getitem response_data "data";;
   available <- getitem d2 "availableBalance";;
   d3 <- getitem response_data "data";;
   withdrawable <- getitem d3 "withdrawableBalance";;
   Returned (PDict {[ "ledger" := ledger;
                      "available" := available;
                      "withdrawable" := withdrawable ]}))%py.

(** Lines 105-141. *)
Definition virtual_account_balance_request (data : value) : M PyKudaResponse :=
  match generate_headers self with
  | HeaderResponse headers =>
      ret (PyKudaResponse_ (r_status_code headers) (RawResponse headers) None)
  | HeaderMap headers =>
      (response <- requests_post (REQUEST_URL self) data headers 10;;
       response_data <- json response;;
       c <- lift (balance_cond response response_data);;
       if truthy c then
         lift (p <- balance_payload response_data;;
               Returned (PyKudaResponse_ 200 (Extracted p) None))%py
       else
         ret (PyKudaResponse_ (r_status_code response) (RawResponse response) (Some true)))%M
  end.

(** Lines 143-179. *)
Definition main_account_balance_request (data : value) : M PyKudaResponse :=
  match generate_headers self with
  | HeaderResponse headers =>
      ret (PyKudaResponse_ (r_status_code headers) (RawResponse headers) None)
  | HeaderMap headers =>
      (response <- requests_post (REQUEST_URL self) data headers 10;;
       response_data <- json response;;
       c <- lift (balance_cond response response_data);;
       if truthy c then
         lift (p <- balance_payload response_data;;
               Returned (PyKudaResponse_ 200 (Extracted p) None))%py
       else
         ret (PyKudaResponse_ (r_status_code response) (RawResponse response) (Some true)))%M
  end.

(** Lines 205-209 (and, the same text, 243-247, 333-337, 376-380). *)
Definition transaction_reference_cond (response : Response) (response_data : value) : outcome value :=
  (eq_int (r_status_code response) 200
   AND get response_data "status"
   AND get response_data "transactionReference")%py.

(** Lines 181-217. *)
Definition fund_virtual_account_request (data : value) : M PyKudaResponse :=
  match generate_headers self with
  | HeaderResponse headers =>
      ret (PyKudaResponse_ (r_status_code headers) (RawResponse headers) None)
  | HeaderMap headers =>
      (response <- requests_post (REQUEST_URL self) data headers 10;;
       response_data <- json response;;
       c <- lift (transaction_reference_cond response response_data);;
       if truthy c then
         lift (reference <- get response_data "transactionReference";;
               Returned (PyKudaResponse_ 200
                 (Extracted (PDict {[ "reference" := reference ]})) None))%py
       else
         ret (PyKudaResponse_ (r_status_code response) (RawResponse response) (Some true)))%M
  end.

(** Lines 219-255. *)
Definition withdraw_from_virtual_account_request (data : value) : M PyKudaResponse :=
  match generate_headers self with
  | HeaderResponse headers =>
      ret (PyKudaResponse_ (r_status_code headers) (RawResponse headers) None)
  | HeaderMap headers =>
      (response <- requests_post (REQUEST_URL self) data headers 10;;
       response_data <- json response;;
       c <- lift (transaction_reference_cond response response_data);;
       if truthy c then
         lift (reference <- get response_data "transactionReference";;
               Returned (PyKudaResponse_ 200
                 (Extracted (PDict {[ "reference" := reference ]})) None))%py
       else
         ret (PyKudaResponse_ (r_status_code response) (RawResponse response) (Some true)))%M
  end.

(** Lines 281-287. *)
Definition confirm_transfer_recipient_cond (response : Response) (response_data : value) : outcome value :=
  (eq_int (r_status_code response) 200
   AND get response_data "status"
   AND get response_data "data"
   AND (d <- get response_data "data";; get d "beneficiaryAccountNumber")
   AND (d <- get response_data "data";; get d "beneficiaryName"))%py.

(** Lines 257-307. *)
Definition confirm_transfer_recipient_request (data : value) : M PyKudaResponse :=
  match generate_headers self with
  | HeaderResponse headers =>
      ret (PyKudaResponse_ (r_status_code headers) (RawResponse headers) None)
  | HeaderMap headers =>
      (response <- requests_post (REQUEST_URL self) data headers 10;;
       response_data <- json response;;
       c <- lift (confirm_transfer_recipient_cond response response_data);;
       if truthy c then
         lift (beneficiary_data <- get response_data "data";;
               beneficiary_account_number <- get beneficiary_data "beneficiaryAccountNumber";;
               beneficiary_name <- get beneficiary_data "beneficiaryName";;
               beneficiary_code <- get beneficiary_data "beneficiaryBankCode";;
               session_id <- get beneficiary_data "sessionID";;
               sender_account <- get beneficiary_data "senderAccountNumber";;
               transfer_charge <- get beneficiary_data "transferCharge";;
               name_enquiry_id <- get beneficiary_data "nameEnquiryID";;
               q <- getitem data "Data";;
               tracking_reference <- getitem q "SenderTrackingReference";;
               Returned (PyKudaResponse_ 200
                 (Extracted (PDict {[ "beneficiary_account_number" := beneficiary_account_number;
                                      "beneficiary_name" := beneficiary_name;
                                      "beneficiary_code" := beneficiary_code;
                                      "session_id" := session_id;
                                      "sender_account" := sender_account;
                                      "transfer_charge" := transfer_charge;
                                      "name_enquiry_id" := name_enquiry_id;
                                      "tracking_reference" := tracking_reference ]}))
                 None))%py
       else
         ret (PyKudaResponse_ (r_status_code response) (RawResponse response) (Some true)))%M
  end.

(** Lines 309-350. *)
Definition send_funds_from_main_account_request (data : value) : M PyKudaResponse :=
  match generate_headers self with
  | HeaderResponse headers =>
      ret (PyKudaResponse_ (r_status_code headers) (RawResponse headers) None)
  | HeaderMap headers =>
      (response <- requests_post (REQUEST_URL self) data headers 10;;
       response_data <- json response;;
       c <- lift (transaction_reference_cond response response_data);;
       if truthy c then
         lift (transaction_reference <- get response_data "transactionReference";;
               request_reference <- get response_data "requestReference";;
               Returned (PyKudaResponse_ 200
                 (Extracted (PDict {[ "transaction_reference" := transaction_reference;
                                      "request_reference" := request_reference ]}))
                 None))%py
       else
         ret (PyKudaResponse_ (r_status_code response) (RawResponse response) (Some true)))%M
  end.

(** Lines 352-393. *)
Definition send_funds_from_virtual_account_request (data : value) : M PyKudaResponse :=
  match generate_headers self with
  | HeaderResponse headers =>
      ret (PyKudaResponse_ (r_status_code headers) (RawResponse headers) None)
  | HeaderMap headers =>
      (response <- requests_post (REQUEST_URL self) data headers 10;;
       response_data <- json response;;
       c <- lift (transaction_reference_cond response response_data);;
       if truthy c then
         lift (transaction_reference <- get response_data "transactionReference";;
               request_reference <- get response_data "requestReference";;
               Returned (PyKudaResponse_ 200
                 (Extracted (PDict {[ "transaction_reference" := transaction_reference;
                                      "request_reference" := request_reference ]}))
                 None))%py
       else
         ret (PyKudaResponse_ (r_status_code response) (RawResponse response) (Some true)))%M
  end.

(** *** Bill payments *)

(** Lines 421-426, 462-467 and 503-508: the same condition up to the
    name of the field of [data] it asks for. *)
Definition data_field_cond (field : string) (response : Response) (response_data : value) : outcome value :=
  (eq_int (r_status_code response) 200
   AND get response_data "status"
   AND get response_data "data"
   AND (d <- get response_data "data";; get d field))%py.

(** Lines 397-436. *)
Definition billers_request (data : value) : M PyKudaResponse :=
  match generate_headers self with
  | HeaderResponse headers =>
      ret (PyKudaResponse_ (r_status_code headers) (RawResponse headers) None)
  | HeaderMap headers =>
      (response <- requests_post (REQUEST_URL self) data headers 10;;
       response_data <- json response;;
       c <- lift (data_field_cond "billers" response response_data);;
       if truthy c then
         lift (d <- get response_data "data";;
               billers <- get d "billers";;
               Returned (PyKudaResponse_ 200
                 (Extracted (PDict {[ "billers" := billers ]})) None))%py
       else
         ret (PyKudaResponse_ (r_status_code response) (RawResponse response) (Some true)))%M
  end.

(** Lines 438-477. *)
Definition verify_bill_customer_request (data : value) : M PyKudaResponse :=
  match generate_headers self with
  | HeaderResponse headers =>
      ret (PyKudaResponse_ (r_status_code headers) (RawResponse headers) None)
  | HeaderMap headers =>
      (response <- requests_post (REQUEST_URL self) data headers 10;;
       response_data <- json response;;
       c <- lift (data_field_cond "customerName" response response_data);;
       if truthy c then
         lift (d <- get response_data "data";;
               customerName <- get d "customerName";;
               Returned (PyKudaResponse_ 200
                 (Extracted (PDict {[ "customerName" := customerName ]})) None))%py
       else
         ret (PyKudaResponse_ (r_status_code response) (RawResponse response) (Some true)))%M
  end.

(** Lines 479-518. *)
Definition virtual_account_purchase_bill_request (data : value) : M PyKudaResponse :=
  match generate_headers self with
  | HeaderResponse headers =>
      ret (PyKudaResponse_ (r_status_code headers) (RawResponse headers) None)
  | HeaderMap headers =>
      (response <- requests_post (REQUEST_URL self) data headers 10;;
       response_data <- json response;;
       c <- lift (data_field_cond "reference" response response_data);;
       if truthy c then
         lift (d <- get response_data "data";;
               reference <- get d "reference";;
               Returned (PyKudaResponse_ 200
                 (Extracted (PDict {[ "reference" := reference ]})) None))%py
       else
         ret (PyKudaResponse_ (r_status_code response) (RawResponse response) (Some true)))%M
  end.

End Methods.

(** ** The methods as one family *)

Inductive endpoint : Type :=
| BankList
| CreateVirtualAccount
| VirtualAccountBalance
| MainAccountBalance
| FundVirtualAccount
| WithdrawFromVirtualAccount
| ConfirmTransferRecipient
| SendFundsFromMainAccount
| SendFundsFromVirtualAccount
| Billers
| VerifyBillCustomer
| VirtualAccountPurchaseBill.

Definition call (ep : endpoint) : ServiceTypeUtils -> value -> M PyKudaResponse :=
  match ep with
  | BankList => bank_list_request
  | CreateVirtualAccount => create_virtual_account_request
  | VirtualAccountBalance => virtual_account_balance_request
  | MainAccountBalance => main_account_balance_request
  | FundVirtualAccount => fund_virtual_account_request
  | WithdrawFromVirtualAccount => withdraw_from_virtual_account_request
  | ConfirmTransferRecipient => confirm_transfer_recipient_request
  | SendFundsFromMainAccount => send_funds_from_main_account_request
  | SendFundsFromVirtualAccount => send_funds_from_virtual_account_request
  | Billers => billers_request
  | VerifyBillCustomer => verify_bill_customer_request
  | VirtualAccountPurchaseBill => virtual_account_purchase_bill_request
  end.

(** The condition each method tests. *)
Definition success_cond (ep : endpoint) : Response -> value -> outcome value :=
  match ep with
  | BankList => bank_list_cond
  | CreateVirtualAccount => create_virtual_account_cond
  | VirtualAccountBalance | MainAccountBalance => balance_cond
  | FundVirtualAccount | WithdrawFromVirtualAccount
  | SendFundsFromMainAccount | SendFundsFromVirtualAccount => transaction_reference_cond
  | ConfirmTransferRecipient => confirm_transfer_recipient_cond
  | Billers => data_field_cond "billers"
  | VerifyBillCustomer => data_field_cond "customerName"
  | VirtualAccountPurchaseBill => data_field_cond "reference"
  end.

(** ** The common shape of the methods

    All twelve methods are one routine instantiated with a condition and
    a way to build the success object.  [normalise] is that routine;
    [call_normalise] below shows that every method is an instance. *)

(** The POST a method issues. *)
Definition the_post (self : ServiceTypeUtils) (headers : gmap string string)
    (data : value) : post_call :=
  {| post_url := REQUEST_URL self; post_json := data;
     post_headers := headers; post_timeout := 10 |}.

(** The world once [c] has been posted. *)
Definition after_post (w : world) (c : post_call) : world :=
  {| network := network w; sent := (sent w ++ [c])%list |}.

(** The object of the [else] branch of every method. *)
Definition failure (response : Response) : PyKudaResponse :=
  PyKudaResponse_ (r_status_code response) (RawResponse response) (Some true).

(** The object of the [isinstance] branch of every method. *)
Definition short_circuit (headers : Response) : PyKudaResponse :=
  PyKudaResponse_ (r_status_code headers) (RawResponse headers) None.

(** The dictionary (for the bank list: the value) a method extracts when
    its condition holds. *)
Definition extract (ep : endpoint) (data response_data : value) : outcome value :=
  match ep with
  | BankList =>
      (d <- getitem response_data "data";; getitem d "banks")%py
  | CreateVirtualAccount =>
      (d <- getitem response_data "data";;
       account_number <- getitem d "accountNumber";;
       q <- getitem data "Data";;
       tracking_reference <- getitem q "trackingReference";;
       Returned (PDict {[ "account_number" := account_number;
                          "tracking_reference" := tracking_reference ]}))%py
  | VirtualAccountBalance | MainAccountBalance =>
      balance_payload response_data
  | FundVirtualAccount | WithdrawFromVirtualAccount =>
      (reference <- get response_data "transactionReference";;
       Returned (PDict {[ "reference" := reference ]}))%py
  | ConfirmTransferRecipient =>
      (beneficiary_data <- get response_data "data";;
       beneficiary_account_number <- get beneficiary_data "beneficiaryAccountNumber";;
       beneficiary_name <- get beneficiary_data "beneficiaryName";;
       beneficiary_code <- get beneficiary_data "beneficiaryBankCode";;
       session_id <- get beneficiary_data "sessionID";;
       sender_account <- get beneficiary_data "senderAccountNumber";;
       transfer_charge <- get beneficiary_data "transferCharge";;
       name_enquiry_id <- get beneficiary_data "nameEnquiryID";;
       q <- getitem data "Data";;
       tracking_reference <- getitem q "SenderTrackingReference";;
       Returned (PDict {[ "beneficiary_account_number" := beneficiary_account_number;
                          "beneficiary_name" := beneficiary_name;
                          "beneficiary_code" := beneficiary_code;
                          "session_id" := session_id;
                          "sender_account" := sender_account;
                          "transfer_charge" := transfer_charge;
                          "name_enquiry_id" := name_enquiry_id;
                          "tracking_reference" := tracking_reference ]}))%py
  | SendFundsFromMainAccount | SendFundsFromVirtualAccount =>
      (transaction_reference <- get response_data "transactionReference";;
       request_reference <- get response_data "requestReference";;
       Returned (PDict {[ "transaction_reference" := transaction_reference;
                          "request_reference" := request_reference ]}))%py
  | Billers =>
      (d <- get response_data "data";; billers <- get d "billers";;
       Returned (PDict {[ "billers" := billers ]}))%py
  | VerifyBillCustomer =>
      (d <- get response_data "data";; customerName <- get d "customerName";;
       Returned (PDict {[ "customerName" := customerName ]}))%py
  | VirtualAccountPurchaseBill =>
      (d <- get response_data "data";; reference <- get d "reference";;
       Returned (PDict {[ "reference" := reference ]}))%py
  end.

(** The status code a method puts on its success object. *)
Definition success_status (ep : endpoint) : Z :=
  match ep with
  | CreateVirtualAccount => 201
  | _ => 200
  end.

Definition success (ep : endpoint) (data response_data : value) : outcome PyKudaResponse :=
  (p <- extract ep data response_data;;
   Returned (PyKudaResponse_ (success_status ep) (Extracted p) None))%py.

(** What a method does with the reply to its POST. *)
Definition handle (ep : endpoint) (data : value) (response : Response) : outcome PyKudaResponse :=
  match r_json response with
  | None => Raised JSONDecodeError
  | Some response_data =>
      (c <- success_cond ep response response_data;;
       if truthy c then success ep data response_data
       else Returned (failure response))%py
  end.

Definition normalise (ep : endpoint) (self : ServiceTypeUtils) (data : value) : M PyKudaResponse :=
  fun w =>
    match generate_headers self with
    | HeaderResponse headers => (Returned (short_circuit headers), w)
    | HeaderMap headers =>
        let c := the_post self headers data in
        (obind (network w c) (handle ep data), after_post w c)
    end.

(** ** Properties of results *)

(** The two alternatives of the spec's invariant on a result. *)
Definition extracted_without_error (r : PyKudaResponse) : bool :=
  match data r with
  | Extracted _ => negb (error r)
  | RawResponse _ => false
  end.

Definition error_with_raw_response (r : PyKudaResponse) : bool :=
  match data r with
  | Extracted _ => false
  | RawResponse _ => error r
  end.

Definition exactly_one (r : PyKudaResponse) : bool :=
  xorb (extracted_without_error r) (error_with_raw_response r).

(** The payload is a [dict] (its keys are strings by construction). *)
Definition payload_is_mapping (r : PyKudaResponse) : bool :=
  match data r with
  | Extracted v => is_dict v
  | RawResponse _ => false
  end.

(** [r.data[k]] for a dictionary payload. *)
Definition payload_field (r : PyKudaResponse) (k : string) : option value :=
  match data r with
  | Extracted (PDict m) => m !! k
  | _ => None
  end.

(** The key of the request's ["Data"] that a method echoes into its
    success payload (lines 96 and 301). *)
Definition echoed_key (ep : endpoint) : option string :=
  match ep with
  | CreateVirtualAccount => Some "trackingReference"
  | ConfirmTransferRecipient => Some "SenderTrackingReference"
  | _ => None
  end.

(** A reply satisfies the success predicate of a method when its body is
    JSON and the method's condition evaluates to a truthy value. *)
Definition satisfies (ep : endpoint) (response : Response) : Prop :=
  exists response_data c,
    r_json response = Some response_data /\
    success_cond ep response response_data = Returned c /\
    truthy c = true.

(** [data["Data"][k]] on the caller's request. *)
Definition request_reference (data : value) (k : string) : outcome value :=
  (q <- getitem data "Data";; getitem q k)%py.

(** The fields of the reply a method cannot build its success object
    without, as paths from the top of the body: those its condition asks
    for and those it reads with a subscript. *)
Definition required_paths (ep : endpoint) : list (list string) :=
  match ep with
  | BankList => [["data"; "banks"]]
  | CreateVirtualAccount => [["data"; "accountNumber"]]
  | VirtualAccountBalance | MainAccountBalance =>
      [["data"; "ledgerBalance"]; ["data"; "availableBalance"];
       ["data"; "withdrawableBalance"]]
  | FundVirtualAccount | WithdrawFromVirtualAccount
  | SendFundsFromMainAccount | SendFundsFromVirtualAccount =>
      [["transactionReference"]]
  | ConfirmTransferRecipient =>
      [["data"; "beneficiaryAccountNumber"]; ["data"; "beneficiaryName"]]
  | Billers => [["data"; "billers"]]
  | VerifyBillCustomer => [["data"; "customerName"]]
  | VirtualAccountPurchaseBill => [["data"; "reference"]]
  end.

(** The field at [path] is missing from [v]: following the path through
    dictionaries ends at a dictionary without the next key. *)
Fixpoint absent (v : value) (path : list string) : bool :=
  match path with
  | [] => false
  | k :: rest =>
      match v with
      | PDict m =>
          match m !! k with
          | None => true
          | Some v' => absent v' rest
          end
      | _ => false
      end
  end.

(** The two balance queries, whose condition asks for no field of [data]. *)
Definition is_balance_query (ep : endpoint) : bool :=
  match ep with
  | VirtualAccountBalance | MainAccountBalance => true
  | _ => false
  end.

(** ** Concrete clients, replies and requests *)

Definition kuda_url : string := "https://kuda-openapi.kuda.com/v2.1".

(** A client whose header step succeeded. *)
Definition authenticated : ServiceTypeUtils :=
  {| REQUEST_URL := kuda_url;
     generate_headers := HeaderMap {[ "Authorization" := "Bearer token" ]} |}.

(** The reply of a refused token request, and a client whose header step
    returned it. *)
Definition unauthorized : Response :=
  {| r_status_code := 401; r_json := None |}.

Definition unauthenticated : ServiceTypeUtils :=
  {| REQUEST_URL := kuda_url; generate_headers := HeaderResponse unauthorized |}.

(** A world in which nothing has been posted yet and every POST is
    answered with [response]. *)
Definition answering (response : Response) : world :=
  {| network := fun _ => Returned response; sent := [] |}.

Definition json_reply (sc : Z) (body : value) : Response :=
  {| r_status_code := sc; r_json := Some body |}.

(** [{"status": true, "data": {"accountNumber": "1234567890"}}] *)
Definition account_created : value :=
  PDict {[ "status" := PBool true;
           "data" := PDict {[ "accountNumber" := PStr "1234567890" ]} ]}.

(** [{"status": true, "data": {"accountNumber": "0987654321"}}] *)
Definition other_account_created : value :=
  PDict {[ "status" := PBool true;
           "data" := PDict {[ "accountNumber" := PStr "0987654321" ]} ]}.

(** [{"Data": {"trackingReference": "TRK1"}}] *)
Definition tracked_request : value :=
  PDict {[ "Data" := PDict {[ "trackingReference" := PStr "TRK1" ]} ]}.

(** [{"ServiceType": "ADMIN_CREATE_VIRTUAL_ACCOUNT"}]: a request without
    the key ["Data"]. *)
Definition untracked : gmap string value :=
  {[ "ServiceType" := PStr "ADMIN_CREATE_VIRTUAL_ACCOUNT" ]}.

Definition untracked_request : value := PDict untracked.

(** [{"Data": {"SenderTrackingReference": "TRK2"}}] *)
Definition sender_tracked_request : value :=
  PDict {[ "Data" := PDict {[ "SenderTrackingReference" := PStr "TRK2" ]} ]}.

(** [{"status": true, "data": {"beneficiaryAccountNumber": "2000000001",
      "beneficiaryName": "ADA OBI", "sessionID": "S1"}}]: the reply names
    the beneficiary but has no bank code, charge or enquiry id. *)
Definition recipient_confirmed : value :=
  PDict {[ "status" := PBool true;
           "data" := PDict {[ "beneficiaryAccountNumber" := PStr "2000000001";
                              "beneficiaryName" := PStr "ADA OBI";
                              "sessionID" := PStr "S1" ]} ]}.

(** [{"status": true, "data": {"ledgerBalance": 100,
      "availableBalance": 90, "withdrawableBalance": 80}}] *)
Definition balances : value :=
  PDict {[ "status" := PBool true;
           "data" := PDict {[ "ledgerBalance" := PInt 100;
                              "availableBalance" := PInt 90;
                              "withdrawableBalance" := PInt 80 ]} ]}.

(** [{"status": true, "data": {"availableBalance": 90,
      "withdrawableBalance": 80}}]: no [ledgerBalance]. *)
Definition balances_without_ledger : value :=
  PDict {[ "status" := PBool true;
           "data" := PDict {[ "availableBalance" := PInt 90;
                              "withdrawableBalance" := PInt 80 ]} ]}.

(** [{"status": true}]: no [data] at all. *)
Definition status_only : value :=
  PDict {[ "status" := PBool true ]}.

(** [[{"bankCode": "999129", "bankName": "Kuda"}]] *)
Definition bank_list : value :=
  PList [ PDict {[ "bankCode" := PStr "999129"; "bankName" := PStr "Kuda" ]} ].

(** [{"status": true, "data": {"banks": [...]}}] *)
Definition banks_reply : value :=
  PDict {[ "status" := PBool true;
           "data" := PDict {[ "banks" := bank_list ]} ]}.

(** [{"status": false, "message": "Invalid request"}] *)
Definition rejected : value :=
  PDict {[ "status" := PBool false; "message" := PStr "Invalid request" ]}.

(** ** Further vocabulary for the behaviour of the methods *)

(** The two methods whose condition tests [response_data] itself before
    calling [.get] on it (lines 50 and 87). *)
Definition tests_body (ep : endpoint) : bool :=
  match ep with
  | BankList | CreateVirtualAccount => true
  | _ => false
  end.

(** The methods whose condition calls [.get] on the [data] of the reply. *)
Definition reads_data_field (ep : endpoint) : bool :=
  match ep with
  | BankList | CreateVirtualAccount | ConfirmTransferRecipient
  | Billers | VerifyBillCustomer | VirtualAccountPurchaseBill => true
  | _ => false
  end.

(** The value found by following [path] through dictionaries. *)
Fixpoint lookup_path (v : value) (path : list string) : option value :=
  match path with
  | [] => Some v
  | k :: rest =>
      match v with
      | PDict m =>
          match m !! k with
          | Some v' => lookup_path v' rest
          | None => None
          end
      | _ => None
      end
  end.

(** The keys of the dictionary literal a method returns on success
    (the bank list returns no dictionary of its own). *)
Definition payload_keys (ep : endpoint) : list string :=
  match ep with
  | BankList => []
  | CreateVirtualAccount => ["account_number"; "tracking_reference"]
  | VirtualAccountBalance | MainAccountBalance =>
      ["ledger"; "available"; "withdrawable"]
  | FundVirtualAccount | WithdrawFromVirtualAccount => ["reference"]
  | ConfirmTransferRecipient =>
      ["beneficiary_account_number"; "beneficiary_name"; "beneficiary_code";
       "session_id"; "sender_account"; "transfer_charge"; "name_enquiry_id";
       "tracking_reference"]
  | SendFundsFromMainAccount | SendFundsFromVirtualAccount =>
      ["transaction_reference"; "request_reference"]
  | Billers => ["billers"]
  | VerifyBillCustomer => ["customerName"]
  | VirtualAccountPurchaseBill => ["reference"]
  end.

(** A world in which nothing has been posted yet and every POST fails in
    the transport. *)
Definition unreachable : world :=
  {| network := fun _ => Raised RequestException; sent := [] |}.

(** A reply whose body is not JSON (a gateway's HTML page). *)
Definition bad_gateway : Response :=
  {| r_status_code := 502; r_json := None |}.

(** [{"status": true, "data": {"banks": []}}] *)
Definition no_banks_map : gmap string value :=
  {[ "status" := PBool true; "data" := PDict {[ "banks" := PList [] ]} ]}.

(** [{"status": false, "message": "Invalid request"}] as a map. *)
Definition rejected_map : gmap string value :=
  {[ "status" := PBool false; "message" := PStr "Invalid request" ]}.

(** [{"status": true, "data": "unavailable"}] *)
Definition data_is_text_map : gmap string value :=
  {[ "status" := PBool true; "data" := PStr "unavailable" ]}.

(** [{"status": true, "data": null}] *)
Definition data_is_null_map : gmap string value :=
  {[ "status" := PBool true; "data" := PNone ]}.

(** [{"ledgerBalance": 0, "availableBalance": 0, "withdrawableBalance": 0}] *)
Definition zero_balances_data : gmap string value :=
  {[ "ledgerBalance" := PInt 0; "availableBalance" := PInt 0;
     "withdrawableBalance" := PInt 0 ]}.

(** [{"status": true, "data": {...zero balances...}}] *)
Definition zero_balances_map : gmap string value :=
  {[ "status" := PBool true; "data" := PDict zero_balances_data ]}.

(** [{"status": true, "transactionReference": "TX1"}] *)
Definition transferred_map : gmap string value :=
  {[ "status" := PBool true; "transactionReference" := PStr "TX1" ]}.

(** The result of confirming a recipient from [recipient_confirmed] for
    the request [sender_tracked_request]. *)
Definition recipient_result : PyKudaResponse :=
  {| status_code := 200;
     data := Extracted (PDict {[ "beneficiary_account_number" := PStr "2000000001";
                                 "beneficiary_name" := PStr "ADA OBI";
                                 "beneficiary_code" := PNone;
                                 "session_id" := PStr "S1";
                                 "sender_account" := PNone;
                                 "transfer_charge" := PNone;
                                 "name_enquiry_id" := PNone;
                                 "tracking_reference" := PStr "TRK2" ]});
     error := false |}.

(** The four methods that move funds and answer with a transaction
    reference at the top of the reply. *)
Definition is_transfer (ep : endpoint) : bool :=
  match ep with
  | FundVirtualAccount | WithdrawFromVirtualAccount
  | SendFundsFromMainAccount | SendFundsFromVirtualAccount => true
  | _ => false
  end.

(** The three bill-payment methods, with the field of [data] each one
    asks for and the key it returns it under. *)
Definition bill_field (ep : endpoint) : option (string * string) :=
  match ep with
  | Billers => Some ("billers", "billers")
  | VerifyBillCustomer => Some ("customerName", "customerName")
  | VirtualAccountPurchaseBill => Some ("reference", "reference")
  | _ => None
  end.

(** [{"status": true, "data": {"reference": "BILL-7"}}] *)
Definition bill_paid_data : gmap string value :=
  {[ "reference" := PStr "BILL-7" ]}.

Definition bill_paid_map : gmap string value :=
  {[ "status" := PBool true; "data" := PDict bill_paid_data ]}.

(** The [data] of [recipient_confirmed]. *)
Definition recipient_data : gmap string value :=
  {[ "beneficiaryAccountNumber" := PStr "2000000001";
     "beneficiaryName" := PStr "ADA OBI";
     "sessionID" := PStr "S1" ]}.

Definition recipient_map : gmap string value :=
  {[ "status" := PBool true; "data" := PDict recipient_data ]}.

(** The [data] of [account_created], and the reply as a map. *)
Definition account_data : gmap string value :=
  {[ "accountNumber" := PStr "1234567890" ]}.

Definition account_map : gmap string value :=
  {[ "status" := PBool true; "data" := PDict account_data ]}.

(** [{"status": true, "data": {"banks": [...]}}] as a map, and its [data]. *)
Definition banks_data : gmap string value := {[ "banks" := bank_list ]}.

Definition banks_map : gmap string value :=
  {[ "status" := PBool true; "data" := PDict banks_data ]}.

(** ** Proof steps shared by the case analyses below *)

Ltac unfold_conds :=
  unfold bank_list_cond, create_virtual_account_cond, balance_cond,
    transaction_reference_cond, confirm_transfer_recipient_cond, data_field_cond,
    and_, eq_int, get in *.

(** One step of evaluation of a Python expression. *)
Ltac py_step := cbn [obind get getitem default from_option id truthy].

(** Evaluate, rewriting with the dictionary lookups known so far. *)
Ltac use_lookups :=
  py_step;
  repeat (match goal with
          | E : ?m !! ?k = _ |- context [?m !! ?k] => rewrite E
          | E : getitem ?v ?k = _ |- context [getitem ?v ?k] => rewrite E
          end; py_step).

(** Case analysis on every test of a condition left in the goal. *)
Ltac split_tests :=
  repeat match goal with
         | |- context [if ?b then _ else _] =>
             let T := fresh "T" in
             destruct b eqn:T; cbn [obind]
         end.

(** Case analysis on the lookups a hypothesis about [absent] went through. *)
Ltac split_lookups H :=
  repeat match type of H with
         | context [match ?o with _ => _ end] =>
             let E := fresh "E" in
             destruct o eqn:E; try discriminate H
         end.

(** From [Hc : cond = Returned c] and [Ht : truthy c = true], the facts
    about the reply that made every conjunct pass. *)
Ltac invert_cond Hc Ht :=
  repeat (cbn [obind default from_option id] in Hc;
          match type of Hc with
          | Returned _ = Returned _ => injection Hc as <-
          | Raised _ = Returned _ => discriminate Hc
          | context [default PNone (?m !! ?k)] =>
              let E := fresh "E" in destruct (m !! k) eqn:E
          | context [if ?b then _ else _] =>
              let T := fresh "T" in destruct b eqn:T
          | context [match ?x with _ => _ end] =>
              let E := fresh "E" in destruct x eqn:E
          end);
  try congruence; try (cbn in Ht; congruence);
  repeat match type of Ht with
         | context [default PNone (?m !! ?k)] =>
             let E := fresh "E" in
             destruct (m !! k) eqn:E; cbn [default from_option id] in Ht
         end;
  try (cbn in Ht; congruence).

(** Case analysis on the lookups and tests of the goal, in evaluation
    order. *)
Ltac evaluate_cases :=
  repeat (py_step;
          match goal with
          | E : ?m !! ?k = _ |- context [?m !! ?k] => rewrite E
          | |- context [default PNone (?m !! ?k)] =>
              let E := fresh "E" in destruct (m !! k) eqn:E
          | |- context [match ?m !! ?k with _ => _ end] =>
              let E := fresh "E" in destruct (m !! k) eqn:E
          | |- context [if ?b then _ else _] =>
              let T := fresh "T" in destruct b eqn:T
          end).

(** Evaluate, rewriting with the known lookups and truth values. *)
Ltac use_facts :=
  py_step;
  repeat (match goal with
          | E : ?m !! ?k = _ |- context [?m !! ?k] => rewrite E
          | E : getitem ?v ?k = _ |- context [getitem ?v ?k] => rewrite E
          | T : truthy ?v = _ |- context [truthy ?v] => rewrite T
          end; py_step).

(** ** Every method is an instance of [normalise] *)

Lemma call_normalise (ep : endpoint) (self : ServiceTypeUtils) (data : value) (w : world) :
  call ep self data w = normalise ep self data w.
Proof.
  unfold normalise.
  destruct ep; cbn [call];
    match goal with |- ?f self data w = _ => unfold f end;
    (destruct (generate_headers self) as [h | h]; [| reflexivity]);
    unfold bind, requests_post, json, lift, ret, the_post, after_post, handle;
    cbn [success_cond success extract success_status];
    (destruct (network w _) as [response | e]; [| reflexivity]);
    cbn [obind];
    (destruct (r_json response) as [response_data |]; [| reflexivity]);
    match goal with
    | |- context [match ?c with Returned _ => _ | Raised _ => _ end] =>
        destruct c as [v | e]
    end;
    cbn [obind]; try reflexivity;
    (destruct (truthy v); [| reflexivity]);
    unfold success; cbn [extract success_status]; unfold balance_payload;
    repeat match goal with
           | |- context [obind ?c _] => destruct c; cbn [obind]
           end;
    reflexivity.
Qed.

(** ** The pieces of a call *)

(** With an error-like header result the method returns at once and the
    world is untouched. *)
Lemma call_short_circuit (ep : endpoint) (self : ServiceTypeUtils) (headers : Response)
    (data : value) (w : world) :
  generate_headers self = HeaderResponse headers ->
  call ep self data w = (Returned (short_circuit headers), w).
Proof.
  intros Hh. rewrite call_normalise. unfold normalise. rewrite Hh. reflexivity.
Qed.

(** With a header map the method posts once and hands the reply to
    [handle]. *)
Lemma call_valid_headers (ep : endpoint) (self : ServiceTypeUtils) (h : gmap string string)
    (data : value) (w : world) :
  generate_headers self = HeaderMap h ->
  call ep self data w =
    (obind (network w (the_post self h data)) (handle ep data),
     after_post w (the_post self h data)).
Proof.
  intros Hh. rewrite call_normalise. unfold normalise. rewrite Hh. reflexivity.
Qed.

(** Exactly one POST is issued on that path, whatever happens next. *)
Lemma valid_headers_one_post (ep : endpoint) (self : ServiceTypeUtils) (h : gmap string string)
    (data : value) (w : world) :
  generate_headers self = HeaderMap h ->
  sent (snd (call ep self data w)) = (sent w ++ [the_post self h data])%list.
Proof.
  intros Hh. rewrite (call_valid_headers _ _ _ _ _ Hh). reflexivity.
Qed.

(** A status code other than 200 decides every condition at its first
    conjunct. *)
Lemma success_cond_not_200 (ep : endpoint) (response : Response) (response_data : value) :
  r_status_code response <> 200 ->
  success_cond ep response response_data = Returned (PBool false).
Proof.
  intros Hsc. apply Z.eqb_neq in Hsc.
  destruct ep; cbn [success_cond];
    unfold bank_list_cond, create_virtual_account_cond, balance_cond,
      transaction_reference_cond, confirm_transfer_recipient_cond, data_field_cond,
      and_, eq_int;
    cbn [obind]; rewrite Hsc; reflexivity.
Qed.

(** What a returned result with a header map can be. *)
Lemma handle_returned (ep : endpoint) (data : value) (response : Response) (r : PyKudaResponse) :
  handle ep data response = Returned r ->
  exists response_data c,
    r_json response = Some response_data /\
    success_cond ep response response_data = Returned c /\
    ((truthy c = false /\ r = failure response) \/
     (truthy c = true /\
      exists p, extract ep data response_data = Returned p /\
                r = PyKudaResponse_ (success_status ep) (Extracted p) None)).
Proof.
  unfold handle. destruct (r_json response) as [response_data |]; [| discriminate].
  destruct (success_cond ep response response_data) as [c | e] eqn:Hc; [| discriminate].
  cbn [obind]. intros H. exists response_data, c.
  split; [reflexivity |]. split; [exact Hc |].
  destruct (truthy c).
  - right. split; [reflexivity |]. unfold success in H.
    destruct (extract ep data response_data) as [p | e]; [| discriminate].
    cbn [obind] in H. injection H as <-. exists p. split; reflexivity.
  - left. injection H as <-. split; reflexivity.
Qed.

Lemma call_returned (ep : endpoint) (self : ServiceTypeUtils) (h : gmap string string)
    (data : value) (w : world) (r : PyKudaResponse) :
  generate_headers self = HeaderMap h ->
  fst (call ep self data w) = Returned r ->
  exists response,
    network w (the_post self h data) = Returned response /\
    handle ep data response = Returned r.
Proof.
  intros Hh. rewrite (call_valid_headers _ _ _ _ _ Hh). cbn [fst].
  destruct (network w (the_post self h data)) as [response | e]; [| discriminate].
  cbn [obind]. intros H. exists response. split; [reflexivity | exact H].
Qed.

(** ** The short circuit on a failed header step *)

(** C3: when [generate_headers] returns an error-like object, every
    method returns without posting anything (the world, and with it the
    list of issued POSTs, is unchanged) and the status code of the result
    is the status code of the header step. *)
Theorem short_circuit_issues_no_post (ep : endpoint) (self : ServiceTypeUtils)
    (headers : Response) (data : value) (w : world) :
  generate_headers self = HeaderResponse headers ->
  exists r,
    fst (call ep self data w) = Returned r /\
    status_code r = r_status_code headers /\
    snd (call ep self data w) = w /\
    sent (snd (call ep self data w)) = sent w.
Proof.
  intros Hh. rewrite (call_short_circuit _ _ _ _ _ Hh).
  exists (short_circuit headers). repeat split.
Qed.

Lemma short_circuit_issues_no_post_witness :
  generate_headers unauthenticated = HeaderResponse unauthorized /\
  exists r,
    fst (call BankList unauthenticated tracked_request (answering (json_reply 200 banks_reply)))
      = Returned r /\
    status_code r = r_status_code unauthorized /\
    snd (call BankList unauthenticated tracked_request (answering (json_reply 200 banks_reply)))
      = answering (json_reply 200 banks_reply) /\
    sent (snd (call BankList unauthenticated tracked_request
                 (answering (json_reply 200 banks_reply))))
      = sent (answering (json_reply 200 banks_reply)).
Proof.
  split; [reflexivity |].
  apply (short_circuit_issues_no_post BankList unauthenticated unauthorized).
  reflexivity.
Defined.

(** C2: on the short circuit the status code and the payload are those of
    the failed header step, but the result is built without [error=True]:
    for every method, a client whose header step returned the 401 reply
    gets a result whose error flag is [False]. *)
Theorem short_circuit_error_flag_unset (ep : endpoint) (data : value) (w : world) :
  fst (call ep unauthenticated data w) =
    Returned {| status_code := 401; data := RawResponse unauthorized; error := false |}.
Proof.
  rewrite (call_short_circuit ep unauthenticated unauthorized data w eq_refl).
  reflexivity.
Qed.

(** C1: the short-circuit result is neither of the two alternatives of
    the invariant: its payload is the raw response of the header step, so
    it is not an extracted payload, and its error flag is [False], so it
    is not an error with the raw response attached. *)
Theorem short_circuit_is_neither (ep : endpoint) (data : value) (w : world) :
  exists r,
    fst (call ep unauthenticated data w) = Returned r /\
    extracted_without_error r = false /\
    error_with_raw_response r = false /\
    exactly_one r = false.
Proof.
  rewrite (call_short_circuit ep unauthenticated unauthorized data w eq_refl).
  exists (short_circuit unauthorized). repeat split.
Qed.

(** The short circuit and the success return build their object the same
    way, without the keyword [error]: they cannot differ in the flag. *)
Lemma short_circuit_flag_is_success_flag (headers : Response) (sc : Z) (p : value) :
  error (short_circuit headers) = error (PyKudaResponse_ sc (Extracted p) None).
Proof. reflexivity. Qed.

(** Past the header step the invariant holds: whatever a method returns
    after its POST is either an extracted payload without the error flag
    or the raw reply with the error flag. *)
Lemma valid_headers_exactly_one (ep : endpoint) (self : ServiceTypeUtils)
    (h : gmap string string) (data : value) (w : world) (r : PyKudaResponse) :
  generate_headers self = HeaderMap h ->
  fst (call ep self data w) = Returned r ->
  exactly_one r = true.
Proof.
  intros Hh Hr.
  destruct (call_returned _ _ _ _ _ _ Hh Hr) as (response & _ & Hr').
  destruct (handle_returned _ _ _ _ Hr')
    as (response_data & c & _ & _ & [[_ ->] | [_ (p & _ & ->)]]);
    reflexivity.
Qed.

(** ** The two scenarios of the spec *)

(** C4: creating a virtual account with reply
    [{"status": true, "data": {"accountNumber": "1234567890"}}], transport
    status 200 and request [{"Data": {"trackingReference": "TRK1"}}]
    gives status code 201, payload [{"account_number": "1234567890",
    "tracking_reference": "TRK1"}] and no error flag. *)
Theorem create_virtual_account_scenario (self : ServiceTypeUtils)
    (h : gmap string string) (w : world) :
  generate_headers self = HeaderMap h ->
  network w (the_post self h tracked_request) = Returned (json_reply 200 account_created) ->
  fst (create_virtual_account_request self tracked_request w) =
    Returned {| status_code := 201;
                data := Extracted (PDict {[ "account_number" := PStr "1234567890";
                                            "tracking_reference" := PStr "TRK1" ]});
                error := false |}.
Proof.
  intros Hh Hnet.
  change (create_virtual_account_request self tracked_request w)
    with (call CreateVirtualAccount self tracked_request w).
  rewrite (call_valid_headers _ _ _ _ _ Hh), Hnet.
  vm_compute. reflexivity.
Qed.

Lemma create_virtual_account_scenario_witness :
  generate_headers authenticated = HeaderMap {[ "Authorization" := "Bearer token" ]} /\
  network (answering (json_reply 200 account_created))
    (the_post authenticated {[ "Authorization" := "Bearer token" ]} tracked_request)
    = Returned (json_reply 200 account_created) /\
  fst (create_virtual_account_request authenticated tracked_request
         (answering (json_reply 200 account_created))) =
    Returned {| status_code := 201;
                data := Extracted (PDict {[ "account_number" := PStr "1234567890";
                                            "tracking_reference" := PStr "TRK1" ]});
                error := false |}.
Proof.
  split; [reflexivity |]. split; [reflexivity |].
  apply (create_virtual_account_scenario authenticated
           {[ "Authorization" := "Bearer token" ]}); reflexivity.
Defined.

(** C7: both balance queries, with transport status 200 and reply
    [{"status": true, "data": {"ledgerBalance": 100, "availableBalance":
    90, "withdrawableBalance": 80}}], give status code 200, payload
    [{"ledger": 100, "available": 90, "withdrawable": 80}] and no error
    flag. *)
Theorem balance_scenario (self : ServiceTypeUtils) (h : gmap string string)
    (data : value) (w : world) :
  generate_headers self = HeaderMap h ->
  network w (the_post self h data) = Returned (json_reply 200 balances) ->
  let expected :=
    Returned {| status_code := 200;
                data := Extracted (PDict {[ "ledger" := PInt 100;
                                            "available" := PInt 90;
                                            "withdrawable" := PInt 80 ]});
                error := false |} in
  fst (virtual_account_balance_request self data w) = expected /\
  fst (main_account_balance_request self data w) = expected.
Proof.
  intros Hh Hnet expected. subst expected.
  change (virtual_account_balance_request self data w)
    with (call VirtualAccountBalance self data w).
  change (main_account_balance_request self data w)
    with (call MainAccountBalance self data w).
  rewrite !(call_valid_headers _ _ _ _ _ Hh), Hnet.
  split; vm_compute; reflexivity.
Qed.

Lemma balance_scenario_witness :
  generate_headers authenticated = HeaderMap {[ "Authorization" := "Bearer token" ]} /\
  network (answering (json_reply 200 balances))
    (the_post authenticated {[ "Authorization" := "Bearer token" ]} untracked_request)
    = Returned (json_reply 200 balances) /\
  fst (virtual_account_balance_request authenticated untracked_request
         (answering (json_reply 200 balances))) =
    Returned {| status_code := 200;
                data := Extracted (PDict {[ "ledger" := PInt 100;
                                            "available" := PInt 90;
                                            "withdrawable" := PInt 80 ]});
                error := false |} /\
  fst (main_account_balance_request authenticated untracked_request
         (answering (json_reply 200 balances))) =
    Returned {| status_code := 200;
                data := Extracted (PDict {[ "ledger" := PInt 100;
                                            "available" := PInt 90;
                                            "withdrawable" := PInt 80 ]});
                error := false |}.
Proof.
  split; [reflexivity |]. split; [reflexivity |].
  apply (balance_scenario authenticated {[ "Authorization" := "Bearer token" ]}
           untracked_request (answering (json_reply 200 balances)));
    reflexivity.
Defined.

(** ** Replies that fail the condition *)

(** C5: with a header map and a reply whose status code is not 200, the
    result of every method has the error flag set and carries the
    transport's status code; the method does return such a result as soon
    as the body of the reply is JSON. *)
Theorem non_200_is_error (ep : endpoint) (self : ServiceTypeUtils) (h : gmap string string)
    (data : value) (w : world) (response : Response) :
  generate_headers self = HeaderMap h ->
  network w (the_post self h data) = Returned response ->
  r_status_code response <> 200 ->
  (forall r, fst (call ep self data w) = Returned r ->
             error r = true /\ status_code r = r_status_code response) /\
  (forall response_data, r_json response = Some response_data ->
             fst (call ep self data w) = Returned (failure response)).
Proof.
  intros Hh Hnet Hsc.
  rewrite (call_valid_headers _ _ _ _ _ Hh), Hnet. cbn [fst obind].
  unfold handle. destruct (r_json response) as [response_data |].
  - rewrite (success_cond_not_200 ep response response_data Hsc). cbn [obind truthy].
    split.
    + intros r [= <-]. split; reflexivity.
    + intros _ _. reflexivity.
  - split; [intros r [=] | intros response_data [=]].
Qed.

Lemma non_200_is_error_witness :
  generate_headers authenticated = HeaderMap {[ "Authorization" := "Bearer token" ]} /\
  network (answering (json_reply 400 rejected))
    (the_post authenticated {[ "Authorization" := "Bearer token" ]} tracked_request)
    = Returned (json_reply 400 rejected) /\
  r_status_code (json_reply 400 rejected) <> 200 /\
  (forall r, fst (call VirtualAccountPurchaseBill authenticated tracked_request
                    (answering (json_reply 400 rejected))) = Returned r ->
             error r = true /\ status_code r = r_status_code (json_reply 400 rejected)) /\
  (forall response_data, r_json (json_reply 400 rejected) = Some response_data ->
             fst (call VirtualAccountPurchaseBill authenticated tracked_request
                    (answering (json_reply 400 rejected)))
             = Returned (failure (json_reply 400 rejected))).
Proof.
  split; [reflexivity |]. split; [reflexivity |].
  split; [intros [=] |].
  apply (non_200_is_error VirtualAccountPurchaseBill authenticated
           {[ "Authorization" := "Bearer token" ]} tracked_request
           (answering (json_reply 400 rejected)) (json_reply 400 rejected));
    [reflexivity | reflexivity | intros [=]].
Defined.

(** C6: a balance query whose reply has status code 200 and a true
    [status] flag but no [data.ledgerBalance] (or no [data] at all) does
    not return an error result: the subscript at line 133 (line 171 for
    the main account) raises [KeyError]. *)
Theorem balance_without_ledger_raises (data : value) :
  fst (virtual_account_balance_request authenticated data
         (answering (json_reply 200 balances_without_ledger)))
    = Raised (KeyError "ledgerBalance") /\
  fst (main_account_balance_request authenticated data
         (answering (json_reply 200 balances_without_ledger)))
    = Raised (KeyError "ledgerBalance") /\
  fst (virtual_account_balance_request authenticated data
         (answering (json_reply 200 status_only)))
    = Raised (KeyError "data").
Proof.
  change (virtual_account_balance_request authenticated data)
    with (call VirtualAccountBalance authenticated data).
  change (main_account_balance_request authenticated data)
    with (call MainAccountBalance authenticated data).
  rewrite !(call_valid_headers _ authenticated _ data _ eq_refl).
  repeat split; vm_compute; reflexivity.
Qed.

(** ** Missing fields *)

(** A reply without a field that the condition asks for fails the
    condition, and does so without raising. *)
Lemma missing_field_fails_cond (ep : endpoint) (response : Response)
    (m : gmap string value) (path : list string) :
  is_balance_query ep = false ->
  In path (required_paths ep) ->
  absent (PDict m) path = true ->
  exists c, success_cond ep response (PDict m) = Returned c /\ truthy c = false.
Proof.
  intros Hb Hin Habs.
  destruct ep; try discriminate Hb; cbn [required_paths In] in Hin;
    repeat (destruct Hin as [<- | Hin]); try contradiction;
    cbn [absent] in Habs;
    cbn [success_cond]; unfold_conds; cbn [obind truthy];
    split_lookups Habs; use_lookups;
    split_tests; use_lookups;
    (eexists; split; [reflexivity |]); cbn [truthy]; try reflexivity; try assumption.
Qed.

(** For the ten methods whose condition asks for the fields they read,
    a reply with a required field missing gives the error result. *)
Lemma missing_guarded_field_is_error (ep : endpoint) (self : ServiceTypeUtils)
    (h : gmap string string) (data : value) (w : world) (response : Response)
    (m : gmap string value) (path : list string) :
  is_balance_query ep = false ->
  generate_headers self = HeaderMap h ->
  network w (the_post self h data) = Returned response ->
  r_json response = Some (PDict m) ->
  In path (required_paths ep) ->
  absent (PDict m) path = true ->
  fst (call ep self data w) = Returned (failure response).
Proof.
  intros Hb Hh Hnet Hjson Hin Habs.
  rewrite (call_valid_headers _ _ _ _ _ Hh), Hnet. cbn [fst obind].
  unfold handle. rewrite Hjson.
  destruct (missing_field_fails_cond ep response m path Hb Hin Habs) as (c & -> & Hc).
  cbn [obind]. rewrite Hc. reflexivity.
Qed.

(** The balance queries test nothing but the status code and the
    [status] flag, then subscript the reply: whenever the condition holds
    and one of the three balances (or [data]) is missing, they raise
    [KeyError]. *)
Lemma balance_missing_field_raises (ep : endpoint) (self : ServiceTypeUtils)
    (h : gmap string string) (data : value) (w : world) (response : Response)
    (m : gmap string value) (path : list string) :
  is_balance_query ep = true ->
  generate_headers self = HeaderMap h ->
  network w (the_post self h data) = Returned response ->
  r_status_code response = 200 ->
  r_json response = Some (PDict m) ->
  truthy (default PNone (m !! "status")) = true ->
  In path (required_paths ep) ->
  absent (PDict m) path = true ->
  exists key, fst (call ep self data w) = Raised (KeyError key).
Proof.
  intros Hb Hh Hnet Hsc Hjson Hst Hin Habs.
  rewrite (call_valid_headers _ _ _ _ _ Hh), Hnet. cbn [fst obind].
  unfold handle. rewrite Hjson.
  destruct ep; try discriminate Hb; cbn [required_paths In] in Hin;
    repeat (destruct Hin as [<- | Hin]); try contradiction;
    cbn [absent] in Habs;
    cbn [success_cond]; unfold_conds; rewrite Hsc; cbn [Z.eqb Pos.eqb obind truthy];
    rewrite Hst; unfold success; cbn [extract]; unfold balance_payload;
    split_lookups Habs; use_lookups;
    repeat match goal with
           | |- context [match ?m !! ?k with _ => _ end] =>
               destruct (m !! k); cbn [obind]
           end;
    eexists; reflexivity.
Qed.

(** ** The success payload *)

(** When the condition holds, the only part of building the success
    object that can still fail is the lookup in the caller's request. *)
Lemma extract_echo_returns (ep : endpoint) (k : string) (data : value)
    (response : Response) (response_data c t : value) :
  echoed_key ep = Some k ->
  success_cond ep response response_data = Returned c ->
  truthy c = true ->
  request_reference data k = Returned t ->
  exists m : gmap string value,
    extract ep data response_data = Returned (PDict m) /\
    m !! "tracking_reference" = Some t.
Proof.
  intros Hk Hc Ht Hreq. unfold request_reference in Hreq.
  destruct (getitem data "Data") as [q | e] eqn:Hq; [| discriminate Hreq].
  cbn [obind] in Hreq.
  destruct ep; try discriminate Hk; injection Hk as <-;
    cbn [success_cond] in Hc; unfold_conds; invert_cond Hc Ht;
    cbn [extract]; use_lookups;
    (eexists; split; [reflexivity |]);
    repeat (rewrite lookup_insert_ne by discriminate);
    first [apply lookup_singleton_eq | apply lookup_insert_eq].
Qed.

Lemma extract_echo_raises (ep : endpoint) (k : string) (data : value)
    (response : Response) (response_data c : value) (e : exn) :
  echoed_key ep = Some k ->
  success_cond ep response response_data = Returned c ->
  truthy c = true ->
  request_reference data k = Raised e ->
  extract ep data response_data = Raised e.
Proof.
  intros Hk Hc Ht Hreq. unfold request_reference in Hreq.
  destruct ep; try discriminate Hk; injection Hk as <-;
    cbn [success_cond] in Hc; unfold_conds; invert_cond Hc Ht;
    cbn [extract]; use_lookups;
    (destruct (getitem data "Data") as [q | e'];
     [cbn [obind] in Hreq |- *; rewrite Hreq; reflexivity | exact Hreq]).
Qed.

(** Every method but the bank list wraps what it extracts in a
    dictionary literal. *)
Lemma extract_is_dict (ep : endpoint) (data response_data p : value) :
  ep <> BankList ->
  extract ep data response_data = Returned p ->
  is_dict p = true.
Proof.
  intros Hep Hp.
  destruct ep; try contradiction; cbn [extract] in Hp; unfold balance_payload in Hp;
    repeat match type of Hp with
           | context [obind ?c _] => destruct c; cbn [obind] in Hp; try discriminate Hp
           end;
    injection Hp as <-; reflexivity.
Qed.

(** The bank list hands over the value of [data.banks] as it is. *)
Lemma bank_list_extract (data : value) (response : Response) (response_data c p : value) :
  success_cond BankList response response_data = Returned c ->
  truthy c = true ->
  extract BankList data response_data = Returned p ->
  c = p /\
  exists m d, response_data = PDict m /\ m !! "data" = Some (PDict d) /\
              d !! "banks" = Some p.
Proof.
  intros Hc Ht Hp.
  cbn [success_cond] in Hc; unfold_conds; invert_cond Hc Ht.
  all: cbn [extract] in Hp; revert Hp; use_lookups; intros [= <-].
  all: split; [reflexivity | eauto].
Qed.

(** C8 fails on the bank list, which returns the list it found: with the reply
    [{"status": true, "data": {"banks": [{"bankCode": "999129",
    "bankName": "Kuda"}]}}] the call succeeds and its payload is that
    list, which is not a dictionary. *)
Lemma bank_list_payload_is_a_list :
  fst (bank_list_request authenticated untracked_request
         (answering (json_reply 200 banks_reply)))
    = Returned {| status_code := 200; data := Extracted bank_list; error := false |} /\
  payload_is_mapping
    {| status_code := 200; data := Extracted bank_list; error := false |} = false.
Proof.
  split; [vm_compute; reflexivity | reflexivity].
Qed.

(** C8 (amended): past the header step, a result without the error flag
    carries a string-keyed dictionary for every method except the bank
    list, whose payload is the truthy value the reply has at
    [data.banks], handed over as it is. *)
Theorem success_payload_shape (ep : endpoint) (self : ServiceTypeUtils)
    (h : gmap string string) (request : value) (w : world) (r : PyKudaResponse) :
  generate_headers self = HeaderMap h ->
  fst (call ep self request w) = Returned r ->
  error r = false ->
  match ep with
  | BankList =>
      exists response m d banks,
        network w (the_post self h request) = Returned response /\
        r_json response = Some (PDict m) /\
        m !! "data" = Some (PDict d) /\
        d !! "banks" = Some banks /\
        truthy banks = true /\
        data r = Extracted banks
  | _ => payload_is_mapping r = true
  end.
Proof.
  intros Hh Hr Herr.
  destruct (call_returned _ _ _ _ _ _ Hh Hr) as (response & Hnet & Hr').
  destruct (handle_returned _ _ _ _ Hr')
    as (response_data & c & Hjson & Hc & [[_ ->] | [Ht (p & Hp & ->)]]);
    [discriminate Herr |].
  assert (Hdict : ep <> BankList -> is_dict p = true)
    by (intros Hep; exact (extract_is_dict ep request response_data p Hep Hp)).
  destruct ep; try (apply Hdict; discriminate).
  destruct (bank_list_extract request response response_data c p Hc Ht Hp)
    as (-> & m & d & -> & Hd & Hb).
  exists response, m, d, p. repeat split; assumption.
Qed.

Lemma success_payload_shape_witness :
  generate_headers authenticated = HeaderMap {[ "Authorization" := "Bearer token" ]} /\
  fst (call BankList authenticated untracked_request (answering (json_reply 200 banks_reply)))
    = Returned {| status_code := 200; data := Extracted bank_list; error := false |} /\
  error {| status_code := 200; data := Extracted bank_list; error := false |} = false /\
  exists response m d banks,
    network (answering (json_reply 200 banks_reply))
      (the_post authenticated {[ "Authorization" := "Bearer token" ]} untracked_request)
      = Returned response /\
    r_json response = Some (PDict m) /\
    m !! "data" = Some (PDict d) /\
    d !! "banks" = Some banks /\
    truthy banks = true /\
    data {| status_code := 200; data := Extracted bank_list; error := false |}
      = Extracted banks.
Proof.
  split; [reflexivity |]. split; [vm_compute; reflexivity |]. split; [reflexivity |].
  apply (success_payload_shape BankList authenticated
           {[ "Authorization" := "Bearer token" ]} untracked_request
           (answering (json_reply 200 banks_reply))
           {| status_code := 200; data := Extracted bank_list; error := false |});
    [reflexivity | vm_compute; reflexivity | reflexivity].
Defined.

(** ** The echoed tracking reference *)

(** C9: for virtual-account creation and recipient confirmation, the
    [tracking_reference] of a successful payload is the value the
    caller's request has at [data["Data"][k]] ([k] being
    ["trackingReference"], respectively ["SenderTrackingReference"]): any
    two replies that satisfy the success predicate give, for the same
    request, results whose [tracking_reference] is that same value. *)
Theorem tracking_reference_from_request (ep : endpoint) (k : string)
    (self : ServiceTypeUtils) (h : gmap string string) (data t : value)
    (w1 w2 : world) (response1 response2 : Response) :
  echoed_key ep = Some k ->
  generate_headers self = HeaderMap h ->
  network w1 (the_post self h data) = Returned response1 ->
  network w2 (the_post self h data) = Returned response2 ->
  satisfies ep response1 ->
  satisfies ep response2 ->
  request_reference data k = Returned t ->
  exists r1 r2,
    fst (call ep self data w1) = Returned r1 /\
    fst (call ep self data w2) = Returned r2 /\
    error r1 = false /\ error r2 = false /\
    payload_field r1 "tracking_reference" = Some t /\
    payload_field r2 "tracking_reference" = Some t.
Proof.
  intros Hk Hh Hnet1 Hnet2 (b1 & c1 & Hj1 & Hc1 & Ht1) (b2 & c2 & Hj2 & Hc2 & Ht2) Hreq.
  destruct (extract_echo_returns ep k data response1 b1 c1 t Hk Hc1 Ht1 Hreq)
    as (m1 & He1 & Hm1).
  destruct (extract_echo_returns ep k data response2 b2 c2 t Hk Hc2 Ht2 Hreq)
    as (m2 & He2 & Hm2).
  exists (PyKudaResponse_ (success_status ep) (Extracted (PDict m1)) None),
         (PyKudaResponse_ (success_status ep) (Extracted (PDict m2)) None).
  rewrite !(call_valid_headers _ _ _ _ _ Hh), Hnet1, Hnet2. cbn [fst obind].
  unfold handle, success. rewrite Hj1, Hj2, Hc1, Hc2. cbn [obind].
  rewrite Ht1, Ht2, He1, He2. cbn [obind].
  repeat split; assumption.
Qed.

(** C10: for the same two methods, when the reply satisfies the success
    predicate but the caller's request has no key ["Data"], or its
    ["Data"] dictionary has no key [k], the method returns no result: the
    subscript at line 96 (line 301) raises [KeyError] for the missing
    key. *)
Theorem missing_tracking_key_raises (ep : endpoint) (k : string)
    (self : ServiceTypeUtils) (h : gmap string string) (request : gmap string value)
    (w : world) (response : Response) :
  echoed_key ep = Some k ->
  generate_headers self = HeaderMap h ->
  network w (the_post self h (PDict request)) = Returned response ->
  satisfies ep response ->
  (request !! "Data" = None \/
   exists d, request !! "Data" = Some (PDict d) /\ d !! k = None) ->
  fst (call ep self (PDict request) w) =
    Raised (KeyError (match request !! "Data" with
                      | None => "Data"
                      | Some _ => k
                      end)).
Proof.
  intros Hk Hh Hnet (b & c & Hj & Hc & Ht) Hmiss.
  rewrite (call_valid_headers _ _ _ _ _ Hh), Hnet. cbn [fst obind].
  unfold handle, success. rewrite Hj, Hc. cbn [obind]. rewrite Ht.
  assert (Hreq : request_reference (PDict request) k =
                 Raised (KeyError (match request !! "Data" with
                                   | None => "Data"
                                   | Some _ => k
                                   end))).
  { unfold request_reference. cbn [getitem].
    destruct Hmiss as [-> | (d & -> & Hd)]; cbn [obind getitem]; [| rewrite Hd];
      reflexivity. }
  rewrite (extract_echo_raises ep k (PDict request) response b c _ Hk Hc Ht Hreq).
  reflexivity.
Qed.

Lemma tracking_reference_from_request_witness :
  echoed_key CreateVirtualAccount = Some "trackingReference" /\
  generate_headers authenticated = HeaderMap {[ "Authorization" := "Bearer token" ]} /\
  network (answering (json_reply 200 account_created))
    (the_post authenticated {[ "Authorization" := "Bearer token" ]} tracked_request)
    = Returned (json_reply 200 account_created) /\
  network (answering (json_reply 200 other_account_created))
    (the_post authenticated {[ "Authorization" := "Bearer token" ]} tracked_request)
    = Returned (json_reply 200 other_account_created) /\
  satisfies CreateVirtualAccount (json_reply 200 account_created) /\
  satisfies CreateVirtualAccount (json_reply 200 other_account_created) /\
  request_reference tracked_request "trackingReference" = Returned (PStr "TRK1") /\
  exists r1 r2,
    fst (call CreateVirtualAccount authenticated tracked_request
           (answering (json_reply 200 account_created))) = Returned r1 /\
    fst (call CreateVirtualAccount authenticated tracked_request
           (answering (json_reply 200 other_account_created))) = Returned r2 /\
    error r1 = false /\ error r2 = false /\
    payload_field r1 "tracking_reference" = Some (PStr "TRK1") /\
    payload_field r2 "tracking_reference" = Some (PStr "TRK1").
Proof.
  assert (H1 : satisfies CreateVirtualAccount (json_reply 200 account_created))
    by (exists account_created, (PStr "1234567890"); repeat split).
  assert (H2 : satisfies CreateVirtualAccount (json_reply 200 other_account_created))
    by (exists other_account_created, (PStr "0987654321"); repeat split).
  do 4 (split; [reflexivity |]).
  split; [exact H1 |]. split; [exact H2 |]. split; [reflexivity |].
  apply (tracking_reference_from_request CreateVirtualAccount "trackingReference"
           authenticated {[ "Authorization" := "Bearer token" ]} tracked_request
           (PStr "TRK1")
           (answering (json_reply 200 account_created))
           (answering (json_reply 200 other_account_created))
           (json_reply 200 account_created) (json_reply 200 other_account_created));
    first [reflexivity | exact H1 | exact H2].
Defined.

Lemma missing_tracking_key_raises_witness :
  echoed_key CreateVirtualAccount = Some "trackingReference" /\
  generate_headers authenticated = HeaderMap {[ "Authorization" := "Bearer token" ]} /\
  network (answering (json_reply 200 account_created))
    (the_post authenticated {[ "Authorization" := "Bearer token" ]} (PDict untracked))
    = Returned (json_reply 200 account_created) /\
  satisfies CreateVirtualAccount (json_reply 200 account_created) /\
  (untracked !! "Data" = None \/
   exists d, untracked !! "Data" = Some (PDict d) /\ d !! "trackingReference" = None) /\
  fst (call CreateVirtualAccount authenticated (PDict untracked)
         (answering (json_reply 200 account_created))) =
    Raised (KeyError (match untracked !! "Data" with
                      | None => "Data"
                      | Some _ => "trackingReference"
                      end)).
Proof.
  assert (H1 : satisfies CreateVirtualAccount (json_reply 200 account_created))
    by (exists account_created, (PStr "1234567890"); repeat split).
  do 3 (split; [reflexivity |]).
  split; [exact H1 |]. split; [left; reflexivity |].
  apply (missing_tracking_key_raises CreateVirtualAccount "trackingReference"
           authenticated {[ "Authorization" := "Bearer token" ]} untracked
           (answering (json_reply 200 account_created))
           (json_reply 200 account_created));
    first [reflexivity | exact H1 | left; reflexivity].
Defined.

(** ** The same on recipient confirmation, by evaluation *)

Example confirm_transfer_recipient_echoes :
  fst (confirm_transfer_recipient_request authenticated sender_tracked_request
         (answering (json_reply 200 recipient_confirmed)))
    = Returned
        {| status_code := 200;
           data := Extracted (PDict {[ "beneficiary_account_number" := PStr "2000000001";
                                       "beneficiary_name" := PStr "ADA OBI";
                                       "beneficiary_code" := PNone;
                                       "session_id" := PStr "S1";
                                       "sender_account" := PNone;
                                       "transfer_charge" := PNone;
                                       "name_enquiry_id" := PNone;
                                       "tracking_reference" := PStr "TRK2" ]});
           error := false |}.
Proof. vm_compute. reflexivity. Qed.

Example confirm_transfer_recipient_without_data_key :
  fst (confirm_transfer_recipient_request authenticated untracked_request
         (answering (json_reply 200 recipient_confirmed)))
    = Raised (KeyError "Data").
Proof. vm_compute. reflexivity. Qed.

Example confirm_transfer_recipient_without_reference :
  fst (confirm_transfer_recipient_request authenticated tracked_request
         (answering (json_reply 200 recipient_confirmed)))
    = Raised (KeyError "SenderTrackingReference").
Proof. vm_compute. reflexivity. Qed.

Example create_virtual_account_without_account_number :
  fst (create_virtual_account_request authenticated tracked_request
         (answering (json_reply 200 status_only)))
    = Returned (failure (json_reply 200 status_only)).
Proof. vm_compute. reflexivity. Qed.

Example bank_list_body_not_json :
  fst (bank_list_request authenticated tracked_request
         (answering {| r_status_code := 502; r_json := None |}))
    = Raised JSONDecodeError.
Proof. vm_compute. reflexivity. Qed.

(** ** What every call does on the network *)

(** X1: with a header map, a call issues exactly one POST, whether it
    then returns or raises: to the configured URL, with the caller's
    request as JSON body, the generated headers and a timeout of 10. *)
Theorem one_post_per_call (ep : endpoint) (self : ServiceTypeUtils)
    (h : gmap string string) (request : value) (w : world) :
  generate_headers self = HeaderMap h ->
  exists c,
    sent (snd (call ep self request w)) = (sent w ++ [c])%list /\
    post_url c = REQUEST_URL self /\
    post_json c = request /\
    post_headers c = h /\
    post_timeout c = 10.
Proof.
  intros Hh. exists (the_post self h request).
  rewrite (call_valid_headers _ _ _ _ _ Hh). repeat split.
Qed.

Lemma one_post_per_call_witness :
  generate_headers authenticated = HeaderMap {[ "Authorization" := "Bearer token" ]} /\
  exists c,
    sent (snd (call FundVirtualAccount authenticated tracked_request unreachable))
      = (sent unreachable ++ [c])%list /\
    post_url c = REQUEST_URL authenticated /\
    post_json c = tracked_request /\
    post_headers c = {[ "Authorization" := "Bearer token" ]} /\
    post_timeout c = 10.
Proof.
  split; [reflexivity |].
  apply (one_post_per_call FundVirtualAccount authenticated
           {[ "Authorization" := "Bearer token" ]} tracked_request unreachable).
  reflexivity.
Defined.

(** X2: a failure of the transport is not caught: when [requests.post]
    raises, every method raises the same exception and returns no
    result. *)
Theorem transport_failure_propagates (ep : endpoint) (self : ServiceTypeUtils)
    (h : gmap string string) (request : value) (w : world) (e : exn) :
  generate_headers self = HeaderMap h ->
  network w (the_post self h request) = Raised e ->
  fst (call ep self request w) = Raised e.
Proof.
  intros Hh Hnet. rewrite (call_valid_headers _ _ _ _ _ Hh), Hnet. reflexivity.
Qed.

Lemma transport_failure_propagates_witness :
  generate_headers authenticated = HeaderMap {[ "Authorization" := "Bearer token" ]} /\
  network unreachable
    (the_post authenticated {[ "Authorization" := "Bearer token" ]} tracked_request)
    = Raised RequestException /\
  fst (call WithdrawFromVirtualAccount authenticated tracked_request unreachable)
    = Raised RequestException.
Proof.
  split; [reflexivity |]. split; [reflexivity |].
  apply (transport_failure_propagates WithdrawFromVirtualAccount authenticated
           {[ "Authorization" := "Bearer token" ]} tracked_request unreachable
           RequestException); reflexivity.
Defined.

(** X3: [response.json()] is called before the status code is looked
    at: a reply whose body is not JSON makes every method raise the
    decoding error, whatever the status code, instead of returning an
    error result. *)
Theorem unparsable_body_raises (ep : endpoint) (self : ServiceTypeUtils)
    (h : gmap string string) (request : value) (w : world) (response : Response) :
  generate_headers self = HeaderMap h ->
  network w (the_post self h request) = Returned response ->
  r_json response = None ->
  fst (call ep self request w) = Raised JSONDecodeError.
Proof.
  intros Hh Hnet Hjson. rewrite (call_valid_headers _ _ _ _ _ Hh), Hnet.
  cbn [fst obind]. unfold handle. rewrite Hjson. reflexivity.
Qed.

Lemma unparsable_body_raises_witness :
  generate_headers authenticated = HeaderMap {[ "Authorization" := "Bearer token" ]} /\
  network (answering bad_gateway)
    (the_post authenticated {[ "Authorization" := "Bearer token" ]} tracked_request)
    = Returned bad_gateway /\
  r_json bad_gateway = None /\
  fst (call SendFundsFromMainAccount authenticated tracked_request (answering bad_gateway))
    = Raised JSONDecodeError.
Proof.
  do 3 (split; [reflexivity |]).
  apply (unparsable_body_raises SendFundsFromMainAccount authenticated
           {[ "Authorization" := "Bearer token" ]} tracked_request
           (answering bad_gateway) bad_gateway); reflexivity.
Defined.

(** ** Which replies count as success *)

(** The facts every condition, once it holds, has established. *)
Lemma cond_holds_inv (ep : endpoint) (response : Response) (response_data c : value) :
  success_cond ep response response_data = Returned c ->
  truthy c = true ->
  r_status_code response = 200 /\
  exists m, response_data = PDict m /\ truthy (default PNone (m !! "status")) = true.
Proof.
  intros Hc Ht.
  destruct ep; cbn [success_cond] in Hc; unfold_conds; invert_cond Hc Ht.
  all: match goal with
       | T : truthy (PBool (_ =? 200)) = true |- _ =>
           cbn [truthy] in T; apply Z.eqb_eq in T
       end.
  all: split; [assumption |]; eexists; split; [reflexivity |].
  all: use_lookups; assumption.
Qed.

(** X4: past the header step, a result without the error flag is only
    ever returned for a reply with status code 200 whose body is a JSON
    object with a truthy [status]; its status code is then 201 for
    virtual-account creation and 200 for every other method. *)
Theorem success_needs_200_and_status (ep : endpoint) (self : ServiceTypeUtils)
    (h : gmap string string) (request : value) (w : world) (r : PyKudaResponse) :
  generate_headers self = HeaderMap h ->
  fst (call ep self request w) = Returned r ->
  error r = false ->
  exists response m,
    network w (the_post self h request) = Returned response /\
    r_status_code response = 200 /\
    r_json response = Some (PDict m) /\
    truthy (default PNone (m !! "status")) = true /\
    status_code r = match ep with
                    | CreateVirtualAccount => 201
                    | _ => 200
                    end.
Proof.
  intros Hh Hr Herr.
  destruct (call_returned _ _ _ _ _ _ Hh Hr) as (response & Hnet & Hr').
  destruct (handle_returned _ _ _ _ Hr')
    as (response_data & c & Hjson & Hc & [[_ ->] | [Ht (p & _ & ->)]]);
    [discriminate Herr |].
  destruct (cond_holds_inv ep response response_data c Hc Ht) as (Hsc & m & -> & Hst).
  exists response, m. repeat split; assumption.
Qed.

Lemma success_needs_200_and_status_witness :
  generate_headers authenticated = HeaderMap {[ "Authorization" := "Bearer token" ]} /\
  fst (call FundVirtualAccount authenticated tracked_request
         (answering (json_reply 200 (PDict transferred_map))))
    = Returned {| status_code := 200;
                  data := Extracted (PDict {[ "reference" := PStr "TX1" ]});
                  error := false |} /\
  error {| status_code := 200;
           data := Extracted (PDict {[ "reference" := PStr "TX1" ]});
           error := false |} = false /\
  exists response m,
    network (answering (json_reply 200 (PDict transferred_map)))
      (the_post authenticated {[ "Authorization" := "Bearer token" ]} tracked_request)
      = Returned response /\
    r_status_code response = 200 /\
    r_json response = Some (PDict m) /\
    truthy (default PNone (m !! "status")) = true /\
    status_code {| status_code := 200;
                   data := Extracted (PDict {[ "reference" := PStr "TX1" ]});
                   error := false |} = 200.
Proof.
  split; [reflexivity |]. split; [vm_compute; reflexivity |]. split; [reflexivity |].
  apply (success_needs_200_and_status FundVirtualAccount authenticated
           {[ "Authorization" := "Bearer token" ]} tracked_request
           (answering (json_reply 200 (PDict transferred_map)))
           {| status_code := 200;
              data := Extracted (PDict {[ "reference" := PStr "TX1" ]});
              error := false |});
    [reflexivity | vm_compute; reflexivity | reflexivity].
Defined.

(** X5: past the header step, a result with the error flag always
    carries the reply object of the POST itself as payload and that
    reply's status code, also when the status code is 200. *)
Theorem error_result_carries_reply (ep : endpoint) (self : ServiceTypeUtils)
    (h : gmap string string) (request : value) (w : world) (r : PyKudaResponse) :
  generate_headers self = HeaderMap h ->
  fst (call ep self request w) = Returned r ->
  error r = true ->
  exists response,
    network w (the_post self h request) = Returned response /\
    data r = RawResponse response /\
    status_code r = r_status_code response.
Proof.
  intros Hh Hr Herr.
  destruct (call_returned _ _ _ _ _ _ Hh Hr) as (response & Hnet & Hr').
  destruct (handle_returned _ _ _ _ Hr')
    as (response_data & c & _ & _ & [[_ ->] | [_ (p & _ & ->)]]);
    [| discriminate Herr].
  exists response. repeat split. exact Hnet.
Qed.

Lemma error_result_carries_reply_witness :
  generate_headers authenticated = HeaderMap {[ "Authorization" := "Bearer token" ]} /\
  fst (call Billers authenticated tracked_request
         (answering (json_reply 200 (PDict rejected_map))))
    = Returned (failure (json_reply 200 (PDict rejected_map))) /\
  error (failure (json_reply 200 (PDict rejected_map))) = true /\
  exists response,
    network (answering (json_reply 200 (PDict rejected_map)))
      (the_post authenticated {[ "Authorization" := "Bearer token" ]} tracked_request)
      = Returned response /\
    data (failure (json_reply 200 (PDict rejected_map))) = RawResponse response /\
    status_code (failure (json_reply 200 (PDict rejected_map))) = r_status_code response.
Proof.
  split; [reflexivity |]. split; [vm_compute; reflexivity |]. split; [reflexivity |].
  apply (error_result_carries_reply Billers authenticated
           {[ "Authorization" := "Bearer token" ]} tracked_request
           (answering (json_reply 200 (PDict rejected_map)))
           (failure (json_reply 200 (PDict rejected_map))));
    [reflexivity | vm_compute; reflexivity | reflexivity].
Defined.

(** X6: whatever else the reply holds, a JSON object whose [status] is
    absent or falsy gives the error result in every method, without any
    exception. *)
Theorem falsy_status_flag_is_error (ep : endpoint) (self : ServiceTypeUtils)
    (h : gmap string string) (request : value) (w : world) (response : Response)
    (m : gmap string value) :
  generate_headers self = HeaderMap h ->
  network w (the_post self h request) = Returned response ->
  r_json response = Some (PDict m) ->
  truthy (default PNone (m !! "status")) = false ->
  fst (call ep self request w) = Returned (failure response).
Proof.
  intros Hh Hnet Hjson Hst.
  rewrite (call_valid_headers _ _ _ _ _ Hh), Hnet. cbn [fst obind].
  unfold handle. rewrite Hjson.
  destruct ep; cbn [success_cond]; unfold_conds; cbn [obind];
    split_tests; cbn [obind truthy] in *;
    repeat match goal with
           | T : _ = false |- context [if ?b then _ else _] => rewrite T
           end;
    try reflexivity; congruence.
Qed.

Lemma falsy_status_flag_is_error_witness :
  generate_headers authenticated = HeaderMap {[ "Authorization" := "Bearer token" ]} /\
  network (answering (json_reply 200 (PDict rejected_map)))
    (the_post authenticated {[ "Authorization" := "Bearer token" ]} tracked_request)
    = Returned (json_reply 200 (PDict rejected_map)) /\
  r_json (json_reply 200 (PDict rejected_map)) = Some (PDict rejected_map) /\
  truthy (default PNone (rejected_map !! "status")) = false /\
  fst (call VerifyBillCustomer authenticated tracked_request
         (answering (json_reply 200 (PDict rejected_map))))
    = Returned (failure (json_reply 200 (PDict rejected_map))).
Proof.
  do 4 (split; [reflexivity |]).
  apply (falsy_status_flag_is_error VerifyBillCustomer authenticated
           {[ "Authorization" := "Bearer token" ]} tracked_request
           (answering (json_reply 200 (PDict rejected_map)))
           (json_reply 200 (PDict rejected_map)) rejected_map); reflexivity.
Defined.

(** ** Replies of an unexpected shape *)

(** X7: with status code 200 and a JSON body that is not an object, only
    the bank list and virtual-account creation look at the body before
    calling [.get] on it: they return the error result when the body is
    falsy ([null], [false], [0], [""], [[]]).  In every other case the
    method raises [AttributeError]. *)
Theorem non_object_body (ep : endpoint) (self : ServiceTypeUtils)
    (h : gmap string string) (request : value) (w : world) (response : Response)
    (body : value) :
  generate_headers self = HeaderMap h ->
  network w (the_post self h request) = Returned response ->
  r_status_code response = 200 ->
  r_json response = Some body ->
  is_dict body = false ->
  fst (call ep self request w) =
    if tests_body ep && negb (truthy body)
    then Returned (failure response)
    else Raised AttributeError.
Proof.
  intros Hh Hnet Hsc Hjson Hbody.
  rewrite (call_valid_headers _ _ _ _ _ Hh), Hnet. cbn [fst obind].
  unfold handle. rewrite Hjson.
  destruct ep; cbn [success_cond tests_body andb]; unfold_conds; rewrite Hsc;
    cbn [Z.eqb Pos.eqb obind truthy];
    destruct (truthy body) eqn:Tb;
    destruct body; try discriminate Hbody; cbn [obind negb];
    rewrite ?Tb; reflexivity.
Qed.

Lemma non_object_body_witness :
  generate_headers authenticated = HeaderMap {[ "Authorization" := "Bearer token" ]} /\
  network (answering (json_reply 200 PNone))
    (the_post authenticated {[ "Authorization" := "Bearer token" ]} tracked_request)
    = Returned (json_reply 200 PNone) /\
  r_status_code (json_reply 200 PNone) = 200 /\
  r_json (json_reply 200 PNone) = Some PNone /\
  is_dict PNone = false /\
  fst (call SendFundsFromVirtualAccount authenticated tracked_request
         (answering (json_reply 200 PNone))) =
    if tests_body SendFundsFromVirtualAccount && negb (truthy PNone)
    then Returned (failure (json_reply 200 PNone))
    else Raised AttributeError.
Proof.
  do 5 (split; [reflexivity |]).
  apply (non_object_body SendFundsFromVirtualAccount authenticated
           {[ "Authorization" := "Bearer token" ]} tracked_request
           (answering (json_reply 200 PNone)) (json_reply 200 PNone) PNone);
    reflexivity.
Defined.

(** A dictionary that has a key is truthy. *)
Lemma dict_with_key_truthy (m : gmap string value) (k : string) (v : value) :
  m !! k = Some v -> truthy (PDict m) = true.
Proof.
  intros Hk. cbn [truthy]. destruct (size m) eqn:Hsize; [| reflexivity].
  apply map_size_empty_iff in Hsize. subst m. rewrite lookup_empty in Hk.
  discriminate Hk.
Qed.

(** X8: in the six methods that read a field of [data], a [data] that is
    truthy but not an object (a non-empty string or list, a number)
    passes the test on [data] and then has no [.get]: with status code
    200 and a truthy [status] the method raises [AttributeError]. *)
Theorem malformed_data_raises (ep : endpoint) (self : ServiceTypeUtils)
    (h : gmap string string) (request : value) (w : world) (response : Response)
    (m : gmap string value) (v : value) :
  reads_data_field ep = true ->
  generate_headers self = HeaderMap h ->
  network w (the_post self h request) = Returned response ->
  r_status_code response = 200 ->
  r_json response = Some (PDict m) ->
  truthy (default PNone (m !! "status")) = true ->
  m !! "data" = Some v ->
  truthy v = true ->
  is_dict v = false ->
  fst (call ep self request w) = Raised AttributeError.
Proof.
  intros Hep Hh Hnet Hsc Hjson Hst Hdata Hv Hnd.
  pose proof (dict_with_key_truthy m "data" v Hdata) as Hm.
  rewrite (call_valid_headers _ _ _ _ _ Hh), Hnet. cbn [fst obind].
  unfold handle. rewrite Hjson.
  destruct ep; try discriminate Hep; cbn [success_cond]; unfold_conds; rewrite Hsc;
    cbn [Z.eqb Pos.eqb obind]; cbn [truthy] in Hm |- *;
    rewrite ?Hm, Hst, Hdata; cbn [default from_option id]; rewrite Hv;
    destruct v; try discriminate Hnd; reflexivity.
Qed.

Lemma malformed_data_raises_witness :
  reads_data_field Billers = true /\
  generate_headers authenticated = HeaderMap {[ "Authorization" := "Bearer token" ]} /\
  network (answering (json_reply 200 (PDict data_is_text_map)))
    (the_post authenticated {[ "Authorization" := "Bearer token" ]} tracked_request)
    = Returned (json_reply 200 (PDict data_is_text_map)) /\
  r_status_code (json_reply 200 (PDict data_is_text_map)) = 200 /\
  r_json (json_reply 200 (PDict data_is_text_map)) = Some (PDict data_is_text_map) /\
  truthy (default PNone (data_is_text_map !! "status")) = true /\
  data_is_text_map !! "data" = Some (PStr "unavailable") /\
  truthy (PStr "unavailable") = true /\
  is_dict (PStr "unavailable") = false /\
  fst (call Billers authenticated tracked_request
         (answering (json_reply 200 (PDict data_is_text_map))))
    = Raised AttributeError.
Proof.
  do 9 (split; [reflexivity |]).
  apply (malformed_data_raises Billers authenticated
           {[ "Authorization" := "Bearer token" ]} tracked_request
           (answering (json_reply 200 (PDict data_is_text_map)))
           (json_reply 200 (PDict data_is_text_map)) data_is_text_map
           (PStr "unavailable")); reflexivity.
Defined.

(** X9: the balance queries subscript [data] without testing it: with
    status code 200 and a truthy [status], a [data] that is present but
    not an object, [null] included, makes them raise [TypeError]. *)
Theorem balance_malformed_data_raises (ep : endpoint) (self : ServiceTypeUtils)
    (h : gmap string string) (request : value) (w : world) (response : Response)
    (m : gmap string value) (v : value) :
  is_balance_query ep = true ->
  generate_headers self = HeaderMap h ->
  network w (the_post self h request) = Returned response ->
  r_status_code response = 200 ->
  r_json response = Some (PDict m) ->
  truthy (default PNone (m !! "status")) = true ->
  m !! "data" = Some v ->
  is_dict v = false ->
  fst (call ep self request w) = Raised TypeError.
Proof.
  intros Hep Hh Hnet Hsc Hjson Hst Hdata Hnd.
  rewrite (call_valid_headers _ _ _ _ _ Hh), Hnet. cbn [fst obind].
  unfold handle. rewrite Hjson.
  destruct ep; try discriminate Hep; cbn [success_cond]; unfold_conds; rewrite Hsc;
    cbn [Z.eqb Pos.eqb obind truthy]; rewrite Hst;
    unfold success; cbn [extract]; unfold balance_payload; use_lookups;
    destruct v; try discriminate Hnd; reflexivity.
Qed.

Lemma balance_malformed_data_raises_witness :
  is_balance_query MainAccountBalance = true /\
  generate_headers authenticated = HeaderMap {[ "Authorization" := "Bearer token" ]} /\
  network (answering (json_reply 200 (PDict data_is_null_map)))
    (the_post authenticated {[ "Authorization" := "Bearer token" ]} tracked_request)
    = Returned (json_reply 200 (PDict data_is_null_map)) /\
  r_status_code (json_reply 200 (PDict data_is_null_map)) = 200 /\
  r_json (json_reply 200 (PDict data_is_null_map)) = Some (PDict data_is_null_map) /\
  truthy (default PNone (data_is_null_map !! "status")) = true /\
  data_is_null_map !! "data" = Some PNone /\
  is_dict PNone = false /\
  fst (call MainAccountBalance authenticated tracked_request
         (answering (json_reply 200 (PDict data_is_null_map))))
    = Raised TypeError.
Proof.
  do 8 (split; [reflexivity |]).
  apply (balance_malformed_data_raises MainAccountBalance authenticated
           {[ "Authorization" := "Bearer token" ]} tracked_request
           (answering (json_reply 200 (PDict data_is_null_map)))
           (json_reply 200 (PDict data_is_null_map)) data_is_null_map PNone);
    reflexivity.
Defined.

(** ** Which fields are tested, and how *)

(** X10: the ten methods with a field guard test the field for truth,
    not for presence: a required field that is present but falsy (an
    empty list of banks, an empty account number, a reference [0]) gives
    the error result although the status code is 200. *)
Theorem falsy_guarded_field_is_error (ep : endpoint) (self : ServiceTypeUtils)
    (h : gmap string string) (request : value) (w : world) (response : Response)
    (m : gmap string value) (path : list string) (v : value) :
  is_balance_query ep = false ->
  generate_headers self = HeaderMap h ->
  network w (the_post self h request) = Returned response ->
  r_json response = Some (PDict m) ->
  In path (required_paths ep) ->
  lookup_path (PDict m) path = Some v ->
  truthy v = false ->
  fst (call ep self request w) = Returned (failure response).
Proof.
  intros Hb Hh Hnet Hjson Hin Hlp Hv.
  rewrite (call_valid_headers _ _ _ _ _ Hh), Hnet. cbn [fst obind].
  unfold handle. rewrite Hjson.
  destruct ep; try discriminate Hb; cbn [required_paths In] in Hin;
    repeat (destruct Hin as [<- | Hin]); try contradiction;
    cbn [lookup_path] in Hlp;
    cbn [success_cond]; unfold_conds; cbn [obind truthy];
    split_lookups Hlp; injection Hlp as ->; use_lookups;
    split_tests; use_lookups; rewrite ?Hv; try reflexivity;
    cbn [truthy] in *; congruence.
Qed.

Lemma falsy_guarded_field_is_error_witness :
  is_balance_query BankList = false /\
  generate_headers authenticated = HeaderMap {[ "Authorization" := "Bearer token" ]} /\
  network (answering (json_reply 200 (PDict no_banks_map)))
    (the_post authenticated {[ "Authorization" := "Bearer token" ]} tracked_request)
    = Returned (json_reply 200 (PDict no_banks_map)) /\
  r_json (json_reply 200 (PDict no_banks_map)) = Some (PDict no_banks_map) /\
  In ["data"; "banks"] (required_paths BankList) /\
  lookup_path (PDict no_banks_map) ["data"; "banks"] = Some (PList []) /\
  truthy (PList []) = false /\
  fst (call BankList authenticated tracked_request
         (answering (json_reply 200 (PDict no_banks_map))))
    = Returned (failure (json_reply 200 (PDict no_banks_map))).
Proof.
  do 4 (split; [reflexivity |]). split; [left; reflexivity |].
  do 2 (split; [reflexivity |]).
  apply (falsy_guarded_field_is_error BankList authenticated
           {[ "Authorization" := "Bearer token" ]} tracked_request
           (answering (json_reply 200 (PDict no_banks_map)))
           (json_reply 200 (PDict no_banks_map)) no_banks_map
           ["data"; "banks"] (PList []));
    first [reflexivity | left; reflexivity].
Defined.

(** X11: the balance queries do not test the balances at all: with
    status code 200, a truthy [status] and the three balances present in
    [data], they succeed and hand over the three values as they are,
    whatever they are (a zero balance is not an error). *)
Theorem balance_values_are_not_tested (ep : endpoint) (self : ServiceTypeUtils)
    (h : gmap string string) (request : value) (w : world) (response : Response)
    (m d : gmap string value) (ledger available withdrawable : value) :
  is_balance_query ep = true ->
  generate_headers self = HeaderMap h ->
  network w (the_post self h request) = Returned response ->
  r_status_code response = 200 ->
  r_json response = Some (PDict m) ->
  truthy (default PNone (m !! "status")) = true ->
  m !! "data" = Some (PDict d) ->
  d !! "ledgerBalance" = Some ledger ->
  d !! "availableBalance" = Some available ->
  d !! "withdrawableBalance" = Some withdrawable ->
  fst (call ep self request w) =
    Returned {| status_code := 200;
                data := Extracted (PDict {[ "ledger" := ledger;
                                            "available" := available;
                                            "withdrawable" := withdrawable ]});
                error := false |}.
Proof.
  intros Hep Hh Hnet Hsc Hjson Hst Hdata Hl Ha Hw.
  rewrite (call_valid_headers _ _ _ _ _ Hh), Hnet. cbn [fst obind].
  unfold handle. rewrite Hjson.
  destruct ep; try discriminate Hep; cbn [success_cond]; unfold_conds; rewrite Hsc;
    cbn [Z.eqb Pos.eqb obind truthy]; rewrite Hst;
    unfold success; cbn [extract]; unfold balance_payload; use_lookups;
    reflexivity.
Qed.

Lemma balance_values_are_not_tested_witness :
  is_balance_query VirtualAccountBalance = true /\
  generate_headers authenticated = HeaderMap {[ "Authorization" := "Bearer token" ]} /\
  network (answering (json_reply 200 (PDict zero_balances_map)))
    (the_post authenticated {[ "Authorization" := "Bearer token" ]} tracked_request)
    = Returned (json_reply 200 (PDict zero_balances_map)) /\
  r_status_code (json_reply 200 (PDict zero_balances_map)) = 200 /\
  r_json (json_reply 200 (PDict zero_balances_map)) = Some (PDict zero_balances_map) /\
  truthy (default PNone (zero_balances_map !! "status")) = true /\
  zero_balances_map !! "data" = Some (PDict zero_balances_data) /\
  zero_balances_data !! "ledgerBalance" = Some (PInt 0) /\
  zero_balances_data !! "availableBalance" = Some (PInt 0) /\
  zero_balances_data !! "withdrawableBalance" = Some (PInt 0) /\
  fst (call VirtualAccountBalance authenticated tracked_request
         (answering (json_reply 200 (PDict zero_balances_map)))) =
    Returned {| status_code := 200;
                data := Extracted (PDict {[ "ledger" := PInt 0;
                                            "available" := PInt 0;
                                            "withdrawable" := PInt 0 ]});
                error := false |}.
Proof.
  do 10 (split; [reflexivity |]).
  apply (balance_values_are_not_tested VirtualAccountBalance authenticated
           {[ "Authorization" := "Bearer token" ]} tracked_request
           (answering (json_reply 200 (PDict zero_balances_map)))
           (json_reply 200 (PDict zero_balances_map))
           zero_balances_map zero_balances_data (PInt 0) (PInt 0) (PInt 0));
    reflexivity.
Defined.

(** The keys of what a method extracts. *)
Lemma extract_keys (ep : endpoint) (request response_data p : value) :
  ep <> BankList ->
  extract ep request response_data = Returned p ->
  exists m : gmap string value,
    p = PDict m /\ dom m = list_to_set (payload_keys ep).
Proof.
  intros Hep Hp.
  destruct ep; try contradiction; cbn [extract] in Hp; unfold balance_payload in Hp;
    repeat match type of Hp with
           | context [obind ?c _] => destruct c; cbn [obind] in Hp; try discriminate Hp
           end;
    injection Hp as <-; (eexists; split; [reflexivity |]);
    cbn [payload_keys list_to_set];
    rewrite ?dom_insert_L, dom_singleton_L, union_empty_r_L; reflexivity.
Qed.

(** X12: past the header step, the payload of a successful result of
    every method but the bank list is a dictionary with exactly the keys
    of that method's literal: absent optional fields of the reply show
    up as keys with value [None], never as missing keys. *)
Theorem success_payload_keys (ep : endpoint) (self : ServiceTypeUtils)
    (h : gmap string string) (request : value) (w : world) (r : PyKudaResponse) :
  ep <> BankList ->
  generate_headers self = HeaderMap h ->
  fst (call ep self request w) = Returned r ->
  error r = false ->
  exists m : gmap string value,
    data r = Extracted (PDict m) /\
    dom m = list_to_set (payload_keys ep).
Proof.
  intros Hep Hh Hr Herr.
  destruct (call_returned _ _ _ _ _ _ Hh Hr) as (response & Hnet & Hr').
  destruct (handle_returned _ _ _ _ Hr')
    as (response_data & c & Hjson & Hc & [[_ ->] | [Ht (p & Hp & ->)]]);
    [discriminate Herr |].
  destruct (extract_keys ep request response_data p Hep Hp) as (m & -> & Hdom).
  exists m. split; [reflexivity | exact Hdom].
Qed.

Lemma success_payload_keys_witness :
  ConfirmTransferRecipient <> BankList /\
  generate_headers authenticated = HeaderMap {[ "Authorization" := "Bearer token" ]} /\
  fst (call ConfirmTransferRecipient authenticated sender_tracked_request
         (answering (json_reply 200 recipient_confirmed))) = Returned recipient_result /\
  error recipient_result = false /\
  exists m : gmap string value,
    data recipient_result = Extracted (PDict m) /\
    dom m = list_to_set (payload_keys ConfirmTransferRecipient).
Proof.
  split; [discriminate |]. split; [reflexivity |].
  split; [vm_compute; reflexivity |]. split; [reflexivity |].
  apply (success_payload_keys ConfirmTransferRecipient authenticated
           {[ "Authorization" := "Bearer token" ]} sender_tracked_request
           (answering (json_reply 200 recipient_confirmed)) recipient_result);
    [discriminate | reflexivity | vm_compute; reflexivity | reflexivity].
Defined.

(** ** The request and the result *)

(** X13: only virtual-account creation and recipient confirmation read
    the caller's request after posting it.  For the other ten methods
    the outcome depends on the reply alone: two requests answered with
    the same reply give the same result or the same exception. *)
Theorem request_only_read_when_echoed (ep : endpoint) (self : ServiceTypeUtils)
    (h : gmap string string) (request1 request2 : value) (w1 w2 : world)
    (response : Response) :
  echoed_key ep = None ->
  generate_headers self = HeaderMap h ->
  network w1 (the_post self h request1) = Returned response ->
  network w2 (the_post self h request2) = Returned response ->
  fst (call ep self request1 w1) = fst (call ep self request2 w2).
Proof.
  intros Hk Hh Hnet1 Hnet2.
  rewrite !(call_valid_headers _ _ _ _ _ Hh), Hnet1, Hnet2. cbn [fst obind].
  destruct ep; try discriminate Hk; reflexivity.
Qed.

Lemma request_only_read_when_echoed_witness :
  echoed_key Billers = None /\
  generate_headers authenticated = HeaderMap {[ "Authorization" := "Bearer token" ]} /\
  network (answering (json_reply 200 (PDict rejected_map)))
    (the_post authenticated {[ "Authorization" := "Bearer token" ]} tracked_request)
    = Returned (json_reply 200 (PDict rejected_map)) /\
  network (answering (json_reply 200 (PDict rejected_map)))
    (the_post authenticated {[ "Authorization" := "Bearer token" ]} untracked_request)
    = Returned (json_reply 200 (PDict rejected_map)) /\
  fst (call Billers authenticated tracked_request
         (answering (json_reply 200 (PDict rejected_map))))
  = fst (call Billers authenticated untracked_request
           (answering (json_reply 200 (PDict rejected_map)))).
Proof.
  do 4 (split; [reflexivity |]).
  apply (request_only_read_when_echoed Billers authenticated
           {[ "Authorization" := "Bearer token" ]} tracked_request untracked_request
           (answering (json_reply 200 (PDict rejected_map)))
           (answering (json_reply 200 (PDict rejected_map)))
           (json_reply 200 (PDict rejected_map))); reflexivity.
Defined.

(** X14: the eight guarded methods that do not read the request return
    a result, success or error, and never raise, for every reply whose
    body is a JSON object in which [data] is absent, falsy or itself an
    object. *)
Theorem well_shaped_reply_never_raises (ep : endpoint) (self : ServiceTypeUtils)
    (h : gmap string string) (request : value) (w : world) (response : Response)
    (m : gmap string value) :
  echoed_key ep = None ->
  is_balance_query ep = false ->
  generate_headers self = HeaderMap h ->
  network w (the_post self h request) = Returned response ->
  r_json response = Some (PDict m) ->
  (forall v, m !! "data" = Some v -> truthy v = true -> is_dict v = true) ->
  exists r, fst (call ep self request w) = Returned r.
Proof.
  intros Hk Hb Hh Hnet Hjson Hshape.
  rewrite (call_valid_headers _ _ _ _ _ Hh), Hnet. cbn [fst obind].
  unfold handle. rewrite Hjson.
  assert (Hdata : m !! "data" = None \/
                  (exists v, m !! "data" = Some v /\ truthy v = false) \/
                  (exists d, m !! "data" = Some (PDict d))).
  { destruct (m !! "data") as [v |] eqn:Hdata; [| left; reflexivity].
    right. destruct (truthy v) eqn:Hv; [| left; eauto].
    right. specialize (Hshape v eq_refl Hv).
    destruct v; try discriminate Hshape. eauto. }
  destruct Hdata as [Hdata | [(v & Hdata & Hv) | (d & Hdata)]];
    destruct ep; try discriminate Hk; try discriminate Hb;
    cbn [success_cond]; unfold_conds; unfold success; cbn [extract];
    evaluate_cases; try (eexists; reflexivity);
    cbn [truthy] in *; congruence.
Qed.

Lemma well_shaped_reply_never_raises_witness :
  echoed_key BankList = None /\
  is_balance_query BankList = false /\
  generate_headers authenticated = HeaderMap {[ "Authorization" := "Bearer token" ]} /\
  network (answering (json_reply 200 (PDict no_banks_map)))
    (the_post authenticated {[ "Authorization" := "Bearer token" ]} tracked_request)
    = Returned (json_reply 200 (PDict no_banks_map)) /\
  r_json (json_reply 200 (PDict no_banks_map)) = Some (PDict no_banks_map) /\
  (forall v, no_banks_map !! "data" = Some v -> truthy v = true -> is_dict v = true) /\
  exists r, fst (call BankList authenticated tracked_request
                   (answering (json_reply 200 (PDict no_banks_map)))) = Returned r.
Proof.
  assert (Hshape : forall v, no_banks_map !! "data" = Some v ->
                             truthy v = true -> is_dict v = true).
  { intros v Hv _. vm_compute in Hv. injection Hv as <-. reflexivity. }
  do 5 (split; [reflexivity |]). split; [exact Hshape |].
  apply (well_shaped_reply_never_raises BankList authenticated
           {[ "Authorization" := "Bearer token" ]} tracked_request
           (answering (json_reply 200 (PDict no_banks_map)))
           (json_reply 200 (PDict no_banks_map)) no_banks_map);
    first [reflexivity | exact Hshape].
Defined.

(** ** What a success carries *)

(** X15: the four methods that move funds succeed exactly on the top
    level [transactionReference]: with status code 200, a truthy
    [status] and a truthy reference, the two funding methods return it
    under [reference], the two sending methods under
    [transaction_reference] together with [request_reference], which is
    [None] when the reply has no [requestReference]. *)
Theorem transfer_success (ep : endpoint) (self : ServiceTypeUtils)
    (h : gmap string string) (request : value) (w : world) (response : Response)
    (m : gmap string value) (reference : value) :
  is_transfer ep = true ->
  generate_headers self = HeaderMap h ->
  network w (the_post self h request) = Returned response ->
  r_status_code response = 200 ->
  r_json response = Some (PDict m) ->
  truthy (default PNone (m !! "status")) = true ->
  m !! "transactionReference" = Some reference ->
  truthy reference = true ->
  fst (call ep self request w) =
    Returned
      {| status_code := 200;
         data := Extracted (PDict
           match ep with
           | SendFundsFromMainAccount | SendFundsFromVirtualAccount =>
               {[ "transaction_reference" := reference;
                  "request_reference" := default PNone (m !! "requestReference") ]}
           | _ => {[ "reference" := reference ]}
           end);
         error := false |}.
Proof.
  intros Hep Hh Hnet Hsc Hjson Hst Href Ht.
  rewrite (call_valid_headers _ _ _ _ _ Hh), Hnet. cbn [fst obind].
  unfold handle. rewrite Hjson.
  destruct ep; try discriminate Hep; cbn [success_cond]; unfold_conds; rewrite Hsc;
    cbn [Z.eqb Pos.eqb obind truthy]; rewrite Hst, Href;
    cbn [default from_option id obind]; rewrite Ht;
    unfold success; cbn [extract get obind]; rewrite Href; reflexivity.
Qed.

Lemma transfer_success_witness :
  is_transfer SendFundsFromMainAccount = true /\
  generate_headers authenticated = HeaderMap {[ "Authorization" := "Bearer token" ]} /\
  network (answering (json_reply 200 (PDict transferred_map)))
    (the_post authenticated {[ "Authorization" := "Bearer token" ]} tracked_request)
    = Returned (json_reply 200 (PDict transferred_map)) /\
  r_status_code (json_reply 200 (PDict transferred_map)) = 200 /\
  r_json (json_reply 200 (PDict transferred_map)) = Some (PDict transferred_map) /\
  truthy (default PNone (transferred_map !! "status")) = true /\
  transferred_map !! "transactionReference" = Some (PStr "TX1") /\
  truthy (PStr "TX1") = true /\
  fst (call SendFundsFromMainAccount authenticated tracked_request
         (answering (json_reply 200 (PDict transferred_map)))) =
    Returned
      {| status_code := 200;
         data := Extracted (PDict
           {[ "transaction_reference" := PStr "TX1";
              "request_reference" := default PNone (transferred_map !! "requestReference") ]});
         error := false |}.
Proof.
  do 8 (split; [reflexivity |]).
  apply (transfer_success SendFundsFromMainAccount authenticated
           {[ "Authorization" := "Bearer token" ]} tracked_request
           (answering (json_reply 200 (PDict transferred_map)))
           (json_reply 200 (PDict transferred_map)) transferred_map (PStr "TX1"));
    reflexivity.
Defined.

(** X16: each bill-payment method succeeds exactly on its own field of
    [data]: with status code 200, a truthy [status], a [data] object and
    a truthy value at that field, the result is the one-key dictionary
    holding that value, with status code 200 and no error flag. *)
Theorem bill_success (ep : endpoint) (field key : string) (self : ServiceTypeUtils)
    (h : gmap string string) (request : value) (w : world) (response : Response)
    (m d : gmap string value) (v : value) :
  bill_field ep = Some (field, key) ->
  generate_headers self = HeaderMap h ->
  network w (the_post self h request) = Returned response ->
  r_status_code response = 200 ->
  r_json response = Some (PDict m) ->
  truthy (default PNone (m !! "status")) = true ->
  m !! "data" = Some (PDict d) ->
  d !! field = Some v ->
  truthy v = true ->
  fst (call ep self request w) =
    Returned {| status_code := 200;
                data := Extracted (PDict {[ key := v ]});
                error := false |}.
Proof.
  intros Hep Hh Hnet Hsc Hjson Hst Hdata Hfield Hv.
  pose proof (dict_with_key_truthy d field v Hfield) as Hd.
  rewrite (call_valid_headers _ _ _ _ _ Hh), Hnet. cbn [fst obind].
  unfold handle. rewrite Hjson.
  destruct ep; try discriminate Hep; injection Hep as <- <-;
    cbn [success_cond]; unfold_conds; rewrite Hsc;
    cbn [Z.eqb Pos.eqb obind]; rewrite Hst, Hdata;
    cbn [default from_option id obind]; rewrite Hd; cbn [obind]; rewrite Hfield;
    cbn [default from_option id obind truthy]; rewrite Hv;
    unfold success; cbn [extract]; use_lookups; reflexivity.
Qed.

Lemma bill_success_witness :
  bill_field VirtualAccountPurchaseBill = Some ("reference", "reference") /\
  generate_headers authenticated = HeaderMap {[ "Authorization" := "Bearer token" ]} /\
  network (answering (json_reply 200 (PDict bill_paid_map)))
    (the_post authenticated {[ "Authorization" := "Bearer token" ]} tracked_request)
    = Returned (json_reply 200 (PDict bill_paid_map)) /\
  r_status_code (json_reply 200 (PDict bill_paid_map)) = 200 /\
  r_json (json_reply 200 (PDict bill_paid_map)) = Some (PDict bill_paid_map) /\
  truthy (default PNone (bill_paid_map !! "status")) = true /\
  bill_paid_map !! "data" = Some (PDict bill_paid_data) /\
  bill_paid_data !! "reference" = Some (PStr "BILL-7") /\
  truthy (PStr "BILL-7") = true /\
  fst (call VirtualAccountPurchaseBill authenticated tracked_request
         (answering (json_reply 200 (PDict bill_paid_map)))) =
    Returned {| status_code := 200;
                data := Extracted (PDict {[ "reference" := PStr "BILL-7" ]});
                error := false |}.
Proof.
  do 9 (split; [reflexivity |]).
  apply (bill_success VirtualAccountPurchaseBill "reference" "reference" authenticated
           {[ "Authorization" := "Bearer token" ]} tracked_request
           (answering (json_reply 200 (PDict bill_paid_map)))
           (json_reply 200 (PDict bill_paid_map)) bill_paid_map bill_paid_data
           (PStr "BILL-7"));
    reflexivity.
Defined.

(** X17: virtual-account creation succeeds on [data.accountNumber]: with
    status code 200, a truthy [status], a truthy account number in the
    [data] object and a request that has [data["Data"]["trackingReference"]],
    the result has status code 201, no error flag, and the payload pairs
    the account number of the reply with the reference of the request. *)
Theorem create_virtual_account_success (self : ServiceTypeUtils)
    (h : gmap string string) (request : value) (w : world) (response : Response)
    (m d : gmap string value) (number t : value) :
  generate_headers self = HeaderMap h ->
  network w (the_post self h request) = Returned response ->
  r_status_code response = 200 ->
  r_json response = Some (PDict m) ->
  truthy (default PNone (m !! "status")) = true ->
  m !! "data" = Some (PDict d) ->
  d !! "accountNumber" = Some number ->
  truthy number = true ->
  request_reference request "trackingReference" = Returned t ->
  fst (create_virtual_account_request self request w) =
    Returned {| status_code := 201;
                data := Extracted (PDict {[ "account_number" := number;
                                            "tracking_reference" := t ]});
                error := false |}.
Proof.
  intros Hh Hnet Hsc Hjson Hst Hdata Hnum Htn Hreq.
  pose proof (dict_with_key_truthy m "data" _ Hdata) as Hm.
  pose proof (dict_with_key_truthy d "accountNumber" _ Hnum) as Hd.
  cbn [truthy] in Hd.
  unfold request_reference in Hreq.
  destruct (getitem request "Data") as [q | e] eqn:Hq; [| discriminate Hreq].
  cbn [obind] in Hreq.
  change (create_virtual_account_request self request w)
    with (call CreateVirtualAccount self request w).
  rewrite (call_valid_headers _ _ _ _ _ Hh), Hnet. cbn [fst obind].
  unfold handle. rewrite Hjson.
  cbn [success_cond]; unfold_conds; rewrite Hsc; cbn [Z.eqb Pos.eqb obind].
  rewrite Hm. use_facts. rewrite Hd. use_facts.
  unfold success; cbn [extract]; use_facts. reflexivity.
Qed.

Lemma create_virtual_account_success_witness :
  generate_headers authenticated = HeaderMap {[ "Authorization" := "Bearer token" ]} /\
  network (answering (json_reply 200 (PDict account_map)))
    (the_post authenticated {[ "Authorization" := "Bearer token" ]} tracked_request)
    = Returned (json_reply 200 (PDict account_map)) /\
  r_status_code (json_reply 200 (PDict account_map)) = 200 /\
  r_json (json_reply 200 (PDict account_map)) = Some (PDict account_map) /\
  truthy (default PNone (account_map !! "status")) = true /\
  account_map !! "data" = Some (PDict account_data) /\
  account_data !! "accountNumber" = Some (PStr "1234567890") /\
  truthy (PStr "1234567890") = true /\
  request_reference tracked_request "trackingReference" = Returned (PStr "TRK1") /\
  fst (create_virtual_account_request authenticated tracked_request
         (answering (json_reply 200 (PDict account_map)))) =
    Returned {| status_code := 201;
                data := Extracted (PDict {[ "account_number" := PStr "1234567890";
                                            "tracking_reference" := PStr "TRK1" ]});
                error := false |}.
Proof.
  do 9 (split; [reflexivity |]).
  apply (create_virtual_account_success authenticated
           {[ "Authorization" := "Bearer token" ]} tracked_request
           (answering (json_reply 200 (PDict account_map)))
           (json_reply 200 (PDict account_map)) account_map account_data
           (PStr "1234567890") (PStr "TRK1"));
    reflexivity.
Defined.

(** X18: recipient confirmation succeeds on the beneficiary's account
    number and name alone: with both truthy in the [data] object (status
    code 200, truthy [status]) and a request that has
    [data["Data"]["SenderTrackingReference"]], the result has status
    code 200 and no error flag, the five other fields of the payload are
    whatever [data] has under their names, [None] when it has nothing,
    and the tracking reference is the one of the request. *)
Theorem confirm_transfer_recipient_success (self : ServiceTypeUtils)
    (h : gmap string string) (request : value) (w : world) (response : Response)
    (m d : gmap string value) (number name t : value) :
  generate_headers self = HeaderMap h ->
  network w (the_post self h request) = Returned response ->
  r_status_code response = 200 ->
  r_json response = Some (PDict m) ->
  truthy (default PNone (m !! "status")) = true ->
  m !! "data" = Some (PDict d) ->
  d !! "beneficiaryAccountNumber" = Some number ->
  truthy number = true ->
  d !! "beneficiaryName" = Some name ->
  truthy name = true ->
  request_reference request "SenderTrackingReference" = Returned t ->
  fst (confirm_transfer_recipient_request self request w) =
    Returned
      {| status_code := 200;
         data := Extracted (PDict
           {[ "beneficiary_account_number" := number;
              "beneficiary_name" := name;
              "beneficiary_code" := default PNone (d !! "beneficiaryBankCode");
              "session_id" := default PNone (d !! "sessionID");
              "sender_account" := default PNone (d !! "senderAccountNumber");
              "transfer_charge" := default PNone (d !! "transferCharge");
              "name_enquiry_id" := default PNone (d !! "nameEnquiryID");
              "tracking_reference" := t ]});
         error := false |}.
Proof.
  intros Hh Hnet Hsc Hjson Hst Hdata Hnum Htn Hname Htm Hreq.
  pose proof (dict_with_key_truthy d "beneficiaryName" _ Hname) as Hd.
  cbn [truthy] in Hd.
  unfold request_reference in Hreq.
  destruct (getitem request "Data") as [q | e] eqn:Hq; [| discriminate Hreq].
  cbn [obind] in Hreq.
  change (confirm_transfer_recipient_request self request w)
    with (call ConfirmTransferRecipient self request w).
  rewrite (call_valid_headers _ _ _ _ _ Hh), Hnet. cbn [fst obind].
  unfold handle. rewrite Hjson.
  cbn [success_cond]; unfold_conds; rewrite Hsc; cbn [Z.eqb Pos.eqb obind].
  use_facts. rewrite Hd. use_facts.
  unfold success; cbn [extract]; use_facts. reflexivity.
Qed.

Lemma confirm_transfer_recipient_success_witness :
  generate_headers authenticated = HeaderMap {[ "Authorization" := "Bearer token" ]} /\
  network (answering (json_reply 200 (PDict recipient_map)))
    (the_post authenticated {[ "Authorization" := "Bearer token" ]} sender_tracked_request)
    = Returned (json_reply 200 (PDict recipient_map)) /\
  r_status_code (json_reply 200 (PDict recipient_map)) = 200 /\
  r_json (json_reply 200 (PDict recipient_map)) = Some (PDict recipient_map) /\
  truthy (default PNone (recipient_map !! "status")) = true /\
  recipient_map !! "data" = Some (PDict recipient_data) /\
  recipient_data !! "beneficiaryAccountNumber" = Some (PStr "2000000001") /\
  truthy (PStr "2000000001") = true /\
  recipient_data !! "beneficiaryName" = Some (PStr "ADA OBI") /\
  truthy (PStr "ADA OBI") = true /\
  request_reference sender_tracked_request "SenderTrackingReference"
    = Returned (PStr "TRK2") /\
  fst (confirm_transfer_recipient_request authenticated sender_tracked_request
         (answering (json_reply 200 (PDict recipient_map)))) =
    Returned
      {| status_code := 200;
         data := Extracted (PDict
           {[ "beneficiary_account_number" := PStr "2000000001";
              "beneficiary_name" := PStr "ADA OBI";
              "beneficiary_code" := default PNone (recipient_data !! "beneficiaryBankCode");
              "session_id" := default PNone (recipient_data !! "sessionID");
              "sender_account" := default PNone (recipient_data !! "senderAccountNumber");
              "transfer_charge" := default PNone (recipient_data !! "transferCharge");
              "name_enquiry_id" := default PNone (recipient_data !! "nameEnquiryID");
              "tracking_reference" := PStr "TRK2" ]});
         error := false |}.
Proof.
  do 11 (split; [reflexivity |]).
  apply (confirm_transfer_recipient_success authenticated
           {[ "Authorization" := "Bearer token" ]} sender_tracked_request
           (answering (json_reply 200 (PDict recipient_map)))
           (json_reply 200 (PDict recipient_map)) recipient_map recipient_data
           (PStr "2000000001") (PStr "ADA OBI") (PStr "TRK2"));
    reflexivity.
Defined.

(** X19: the bank list succeeds on [data.banks]: with status code 200, a
    truthy [status] and a truthy value at [data.banks], the result has
    status code 200, no error flag, and that value itself as payload. *)
Theorem bank_list_success (self : ServiceTypeUtils)
    (h : gmap string string) (request : value) (w : world) (response : Response)
    (m d : gmap string value) (banks : value) :
  generate_headers self = HeaderMap h ->
  network w (the_post self h request) = Returned response ->
  r_status_code response = 200 ->
  r_json response = Some (PDict m) ->
  truthy (default PNone (m !! "status")) = true ->
  m !! "data" = Some (PDict d) ->
  d !! "banks" = Some banks ->
  truthy banks = true ->
  fst (bank_list_request self request w) =
    Returned {| status_code := 200; data := Extracted banks; error := false |}.
Proof.
  intros Hh Hnet Hsc Hjson Hst Hdata Hbanks Htb.
  pose proof (dict_with_key_truthy m "data" _ Hdata) as Hm.
  pose proof (dict_with_key_truthy d "banks" _ Hbanks) as Hd.
  cbn [truthy] in Hd.
  change (bank_list_request self request w) with (call BankList self request w).
  rewrite (call_valid_headers _ _ _ _ _ Hh), Hnet. cbn [fst obind].
  unfold handle. rewrite Hjson.
  cbn [success_cond]; unfold_conds; rewrite Hsc; cbn [Z.eqb Pos.eqb obind].
  rewrite Hm. use_facts. rewrite Hd. use_facts.
  unfold success; cbn [extract]; use_facts. reflexivity.
Qed.

Lemma bank_list_success_witness :
  generate_headers authenticated = HeaderMap {[ "Authorization" := "Bearer token" ]} /\
  network (answering (json_reply 200 (PDict banks_map)))
    (the_post authenticated {[ "Authorization" := "Bearer token" ]} untracked_request)
    = Returned (json_reply 200 (PDict banks_map)) /\
  r_status_code (json_reply 200 (PDict banks_map)) = 200 /\
  r_json (json_reply 200 (PDict banks_map)) = Some (PDict banks_map) /\
  truthy (default PNone (banks_map !! "status")) = true /\
  banks_map !! "data" = Some (PDict banks_data) /\
  banks_data !! "banks" = Some bank_list /\
  truthy bank_list = true /\
  fst (bank_list_request authenticated untracked_request
         (answering (json_reply 200 (PDict banks_map)))) =
    Returned {| status_code := 200; data := Extracted bank_list; error := false |}.
Proof.
  do 8 (split; [reflexivity |]).
  apply (bank_list_success authenticated
           {[ "Authorization" := "Bearer token" ]} untracked_request
           (answering (json_reply 200 (PDict banks_map)))
           (json_reply 200 (PDict banks_map)) banks_map banks_data bank_list);
    reflexivity.
Defined.
